(** * Clearcut: the batch background-removal pipeline

    A shallow embedding of the TypeScript sources

    - [src/App.reducer.ts]   the reducer ([appReducer]) and its state types,
    - the reducer-driven [App] component (its [handleStart] loop and the
      guards of its buttons),
    - [src/App.tsx]          the earlier [useState]-driven [App] component,
    - [src/services/photo.ts] the compositor [applyMask] and the naming
      helper [createFileName],

    followed by the properties of the specification that concern them.

    JavaScript numbers are IEEE-754 doubles: they are modelled by Rocq's
    primitive floats, so [Math.round((c / t) * 100)] is computed with the
    roundings of the original.  A JavaScript [Map] keeps its keys in
    insertion order: it is modelled by an association list. *)

From Stdlib Require Import ZArith List String Ascii Bool Lia Floats Uint63 Sorted.
Import ListNotations.

Set Implicit Arguments.

(** ** JavaScript numbers *)

Module JsNumber.

Open Scope Z_scope.

(** The double that holds the integer [z] (every integer of this program
    is far below 2^53, where the conversion is exact). *)
Definition Number_of_Z (z : Z) : float :=
  match z with
  | Z0 => 0%float
  | Zpos _ => PrimFloat.of_uint63 (Uint63.of_Z z)
  | Zneg p => PrimFloat.opp (PrimFloat.of_uint63 (Uint63.of_Z (Zpos p)))
  end.

(** The exact value of a finite double is [num * 2^e]; both roundings
    below work on that exact value. *)
Definition numerator (s : bool) (m : positive) : Z :=
  if s then Zneg m else Zpos m.

(** [Math.round x]: the integer closest to [x], ties towards +infinity,
    that is [floor (x + 1/2)] computed exactly.  On NaN and the infinities
    [Math.round] returns its argument, which is no integer: the model
    returns [0] there (never reached with a positive divisor). *)
Definition Math_round (x : float) : Z :=
  match Prim2SF x with
  | S754_finite s m e =>
      let num := numerator s m in
      if 0 <=? e then num * 2 ^ e
      else (2 * num + 2 ^ (- e)) / 2 ^ (- e + 1)
  | _ => 0
  end.

(** Round to the nearest integer, ties to the even one. *)
Definition round_half_even (num k : Z) : Z :=
  let f := num / 2 ^ k in
  let twice_rem := 2 * (num mod 2 ^ k) in
  if twice_rem <? 2 ^ k then f
  else if 2 ^ k <? twice_rem then f + 1
  else if Z.even f then f else f + 1.

(** The conversion applied by a store into a [Uint8ClampedArray]
    (WebIDL's clamped octet): NaN becomes 0, the value is clamped to
    [0, 255] and rounded to the nearest integer, ties to even. *)
Definition ToUint8Clamp (x : float) : Z :=
  match Prim2SF x with
  | S754_finite s m e =>
      let num := numerator s m in
      let r := if 0 <=? e then num * 2 ^ e else round_half_even num (- e) in
      Z.min 255 (Z.max 0 r)
  | S754_infinity false => 255
  | _ => 0
  end.

End JsNumber.

(** ** JavaScript [Map] with string keys *)

Module JsMap.

Section Ops.
Variable V : Type.

(** The entries in insertion order. *)
Definition t := list (string * V).

Definition empty : t := [].

(** [m.set(k, v)]: an existing key keeps its position and gets the new
    value, a new key is appended. *)
Fixpoint set (m : t) (k : string) (v : V) : t :=
  match m with
  | [] => [(k, v)]
  | (k', v') :: m' =>
      if String.eqb k' k then (k', v) :: m' else (k', v') :: set m' k v
  end.

(** [m.get(k)], [None] standing for [undefined]. *)
Fixpoint get (m : t) (k : string) : option V :=
  match m with
  | [] => None
  | (k', v') :: m' => if String.eqb k' k then Some v' else get m' k
  end.

Definition keys (m : t) : list string := map fst m.
Definition values (m : t) : list V := map snd m.
Definition size (m : t) : nat := List.length m.
End Ops.

Arguments empty {V}.

End JsMap.

(** ** [App.reducer.ts] *)

Record FileItem := {
  id : string;
  name : string;
  path : string;
  size : Z;
  preview : string
}.

Inductive FileStatus := pending | processing | completed | error.

(** The [status] of a [ProcessingRequest]:
    ["processing" | "success" | "error"]. *)
Inductive RequestStatus := req_processing | req_success | req_error.

Record ProcessingRequest := {
  status : RequestStatus;
  progress : Z;
  processedFiles : JsMap.t FileStatus;
  currentProcessingIndex : Z;
  isCancelling : bool
}.

Record AppState := {
  isDragging : bool;
  files : list FileItem;
  outputFolder : option string;
  processingRequest : option ProcessingRequest
}.

(** A browser [File] as the reducer reads it.  The reducer calls
    [crypto.randomUUID()] and [URL.createObjectURL(file)] for every accepted
    file; their results are carried with the file. *)
Record File := {
  file_name : string;
  file_type : string;
  file_path : option string;
  file_size : Z;
  file_randomUUID : string;
  file_objectURL : string
}.

Inductive AppAction :=
| FILES_SELECTED (payload : list File)
| REMOVE_FILE_BUTTON_CLICKED (payload : Z)
| CLEAR_FILES_BUTTON_CLICKED
| OUTPUT_FOLDER_SELECTED (payload : option string)
| DRAG_ENTERED
| DRAG_LEFT
| REMOVE_BACKGROUND_BUTTON_CLICKED
| FILE_STATUS_CHANGED (fileId : string) (status : FileStatus)
| PROCESSING_PROGRESS_CHANGED (payload : Z)
| PROCESSING_COMPLETED
| CANCEL_BUTTON_CLICKED
| RESET_BUTTON_CLICKED
| CANCEL_COMPLETE.

Definition initialState : AppState :=
  {| isDragging := false; files := []; outputFolder := None;
     processingRequest := None |}.

(** [updateMap]: a copy of the map with the key set. *)
Definition updateMap (V : Type) (map : JsMap.t V) (key : string) (value : V)
  : JsMap.t V :=
  let newMap := map in
  JsMap.set newMap key value.

(** ASCII lower case, for the [/i] flag of the file-name test. *)
Definition lower (c : ascii) : ascii :=
  let n := nat_of_ascii c in
  if andb (Nat.leb 65 n) (Nat.leb n 90) then ascii_of_nat (n + 32) else c.

Fixpoint lowercase (s : string) : string :=
  match s with
  | EmptyString => EmptyString
  | String c s' => String (lower c) (lowercase s')
  end.

Definition endsWith (s suffix : string) : bool :=
  let n := String.length s in
  let k := String.length suffix in
  andb (Nat.leb k n) (String.eqb (substring (n - k) k s) suffix).

(** [/\.(svg|png|jpg|jpeg)$/i.test(name)] *)
Definition has_image_extension (name : string) : bool :=
  let l := lowercase name in
  endsWith l ".svg" || endsWith l ".png" || endsWith l ".jpg"
  || endsWith l ".jpeg".

Definition is_image_file (file : File) : bool :=
  String.prefix "image/" (file_type file) || has_image_extension (file_name file).

(** [(file as any).path || file.name] *)
Definition path_or_name (file : File) : string :=
  match file_path file with
  | Some p => if String.eqb p EmptyString then file_name file else p
  | None => file_name file
  end.

Definition to_FileItem (file : File) : FileItem :=
  {| id := file_randomUUID file;
     name := file_name file;
     path := path_or_name file;
     size := file_size file;
     preview := file_objectURL file |}.

(** [files.filter((_, i) => i !== index)] *)
Fixpoint remove_at (A : Type) (i : Z) (l : list A) : list A :=
  match l with
  | [] => []
  | x :: l' => if Z.eqb i 0 then l' else x :: remove_at (i - 1) l'
  end.

(** [status === "completed" || status === "error"] *)
Definition finished (status : FileStatus) : bool :=
  match status with
  | completed | error => true
  | pending | processing => false
  end.

(** [Math.round((count / total) * 100)] *)
Definition percentage (count total : Z) : Z :=
  JsNumber.Math_round
    (PrimFloat.mul
       (PrimFloat.div (JsNumber.Number_of_Z count) (JsNumber.Number_of_Z total))
       100%float).

Definition initialStatus (files : list FileItem) : JsMap.t FileStatus :=
  fold_left (fun m file => JsMap.set m (id file) pending) files JsMap.empty.

Definition with_processingRequest
  (state : AppState) (req : option ProcessingRequest) : AppState :=
  {| isDragging := isDragging state;
     files := files state;
     outputFolder := outputFolder state;
     processingRequest := req |}.

(** The reducer.  The calls of [URL.revokeObjectURL] in the cases that drop
    files act on the browser's registry of object URLs and leave the
    [AppState] alone; they do not appear here. *)
Definition appReducer (state : AppState) (action : AppAction) : AppState :=
  match action with
  | FILES_SELECTED payload =>
      let imageFiles := filter is_image_file payload in
      let newFiles := map to_FileItem imageFiles in
      {| isDragging := isDragging state;
         files := files state ++ newFiles;
         outputFolder := outputFolder state;
         processingRequest := processingRequest state |}
  | REMOVE_FILE_BUTTON_CLICKED payload =>
      {| isDragging := isDragging state;
         files := remove_at payload (files state);
         outputFolder := outputFolder state;
         processingRequest := processingRequest state |}
  | CLEAR_FILES_BUTTON_CLICKED =>
      {| isDragging := isDragging state;
         files := [];
         outputFolder := outputFolder state;
         processingRequest := None |}
  | OUTPUT_FOLDER_SELECTED payload =>
      {| isDragging := isDragging state;
         files := files state;
         outputFolder :=
           match payload with
           | Some folder => if String.eqb folder EmptyString then None else Some folder
           | None => None
           end;
         processingRequest := processingRequest state |}
  | DRAG_ENTERED =>
      {| isDragging := true;
         files := files state;
         outputFolder := outputFolder state;
         processingRequest := processingRequest state |}
  | DRAG_LEFT =>
      {| isDragging := false;
         files := files state;
         outputFolder := outputFolder state;
         processingRequest := processingRequest state |}
  | REMOVE_BACKGROUND_BUTTON_CLICKED =>
      with_processingRequest state
        (Some {| status := req_processing;
                 progress := 0;
                 processedFiles := initialStatus (files state);
                 currentProcessingIndex := 0;
                 isCancelling := false |})
  | FILE_STATUS_CHANGED fileId newStatus =>
      match processingRequest state with
      | None => state
      | Some req =>
          let updatedProcessedFiles :=
            updateMap (processedFiles req) fileId newStatus in
          let completedCount :=
            Z.of_nat
              (List.length (filter finished (JsMap.values updatedProcessedFiles))) in
          let totalFilesForStatus := Z.of_nat (List.length (files state)) in
          let newProgress :=
            if (0 <? totalFilesForStatus)%Z
            then percentage completedCount totalFilesForStatus
            else 0%Z in
          with_processingRequest state
            (Some {| status := status req;
                     progress := newProgress;
                     processedFiles := updatedProcessedFiles;
                     currentProcessingIndex := currentProcessingIndex req;
                     isCancelling := isCancelling req |})
      end
  | PROCESSING_PROGRESS_CHANGED payload =>
      match processingRequest state with
      | None => state
      | Some req =>
          let totalFilesForProgress := Z.of_nat (List.length (files state)) in
          let progressForIndex :=
            if (0 <? totalFilesForProgress)%Z
            then percentage payload totalFilesForProgress
            else 0%Z in
          with_processingRequest state
            (Some {| status := status req;
                     progress := progressForIndex;
                     processedFiles := processedFiles req;
                     currentProcessingIndex := payload;
                     isCancelling := isCancelling req |})
      end
  | PROCESSING_COMPLETED =>
      match processingRequest state with
      | None => state
      | Some req =>
          with_processingRequest state
            (Some {| status := req_success;
                     progress := 100;
                     processedFiles := processedFiles req;
                     currentProcessingIndex := currentProcessingIndex req;
                     isCancelling := isCancelling req |})
      end
  | CANCEL_BUTTON_CLICKED =>
      match processingRequest state with
      | None => state
      | Some req =>
          with_processingRequest state
            (Some {| status := status req;
                     progress := progress req;
                     processedFiles := processedFiles req;
                     currentProcessingIndex := currentProcessingIndex req;
                     isCancelling := true |})
      end
  | CANCEL_COMPLETE => with_processingRequest state None
  | RESET_BUTTON_CLICKED =>
      {| isDragging := isDragging state;
         files := [];
         outputFolder := outputFolder state;
         processingRequest := None |}
  end.

(** ** The reducer-driven [App] component *)

(** What the component derives from the state at every render. *)

(** [processingRequest?.status === "processing"] *)
Definition isProcessing (state : AppState) : bool :=
  match processingRequest state with
  | Some req =>
      match status req with req_processing => true | _ => false end
  | None => false
  end.

(** [processingRequest?.processedFiles ?? new Map()] *)
Definition processedFiles_of (state : AppState) : JsMap.t FileStatus :=
  match processingRequest state with
  | Some req => processedFiles req
  | None => JsMap.empty
  end.

(** [processingRequest?.isCancelling ?? false] *)
Definition isCancelling_of (state : AppState) : bool :=
  match processingRequest state with
  | Some req => isCancelling req
  | None => false
  end.

Definition isComplete (state : AppState) : bool :=
  if Nat.eqb (List.length (files state)) 0 then false
  else if Nat.eqb (JsMap.size (processedFiles_of state)) 0 then false
  else forallb finished (JsMap.values (processedFiles_of state)).

(** [getProgress]: [processingRequest?.progress ?? 0] unless complete. *)
Definition getProgress (state : AppState) : Z :=
  if isComplete state then 100%Z
  else match processingRequest state with
       | Some req => progress req
       | None => 0%Z
       end.

(** The status shown for a file: [processedFiles.get(file.id) || "pending"]. *)
Definition shown_status (state : AppState) (file : FileItem) : FileStatus :=
  match JsMap.get (processedFiles_of state) (id file) with
  | Some s => s
  | None => pending
  end.

(** [!outputFolder] *)
Definition no_outputFolder (state : AppState) : bool :=
  match outputFolder state with
  | Some folder => String.eqb folder EmptyString
  | None => true
  end.

(** The "Remove background" button: rendered when the run is neither
    complete nor processing, and [disabled] when
    [files.length === 0 || !outputFolder || isProcessing]. *)
Definition start_button_enabled (state : AppState) : bool :=
  negb (isComplete state) && negb (isProcessing state)
  && negb (Nat.eqb (List.length (files state)) 0 || no_outputFolder state
           || isProcessing state).

(** The "Cancel" button: rendered while processing (and not complete),
    [disabled] once [isCancelling]. *)
Definition cancel_button_enabled (state : AppState) : bool :=
  negb (isComplete state) && isProcessing state
  && negb (isCancelling_of state).

(** The component while [handleStart] runs: the reducer state, the reference
    cell [isCancellingRef] that the asynchronous loop reads, and the states
    the reducer went through, latest first. *)
Record World := {
  state : AppState;
  isCancellingRef : bool;
  history : list AppState
}.

Definition dispatch (action : AppAction) (w : World) : World :=
  let next := appReducer (state w) action in
  {| state := next;
     isCancellingRef := isCancellingRef w;
     history := next :: history w |}.

(** A render commits the effect [isCancellingRef.current = isCancelling]. *)
Definition render (w : World) : World :=
  {| state := state w;
     isCancellingRef := isCancelling_of (state w);
     history := history w |}.

(** A click on "Cancel", when the button can be clicked. *)
Definition click_cancel (w : World) : World :=
  if cancel_button_enabled (state w) then dispatch CANCEL_BUTTON_CLICKED w
  else w.

(** [await step]: the loop is suspended, the component renders, the user may
    click "Cancel" meanwhile, and the component has rendered again when the
    loop resumes. *)
Definition await (cancel_clicked : bool) (w : World) : World :=
  let w := render w in
  if cancel_clicked then render (click_cancel w) else w.

(** What happens around one file: whether each awaited step resolves
    ([true]) or rejects, and whether "Cancel" is clicked while it is
    awaited. *)
Record FileRun := {
  generateMask_ok : bool;
  cancel_during_generateMask : bool;
  applyMask_ok : bool;
  cancel_during_applyMask : bool;
  save_ok : bool;
  cancel_during_save : bool
}.

(** One iteration of the loop of [handleStart]; the boolean is [true]
    when the iteration leaves the loop with [break]. *)
Definition process_file (i : nat) (file : FileItem) (r : FileRun) (w : World)
  : World * bool :=
  if isCancellingRef w then (dispatch CANCEL_COMPLETE w, true)
  else
    let w := dispatch (PROCESSING_PROGRESS_CHANGED (Z.of_nat i)) w in
    let w := dispatch (FILE_STATUS_CHANGED (id file) processing) w in
    let catch (w : World) :=
      (dispatch (FILE_STATUS_CHANGED (id file) error) w, false) in
    let w := await (cancel_during_generateMask r) w in
    if negb (generateMask_ok r) then catch w
    else if isCancellingRef w then (dispatch CANCEL_COMPLETE w, true)
    else
      let w := await (cancel_during_applyMask r) w in
      if negb (applyMask_ok r) then catch w
      else if isCancellingRef w then (dispatch CANCEL_COMPLETE w, true)
      else
        let w := await (cancel_during_save r) w in
        if negb (save_ok r) then catch w
        else if isCancellingRef w then (dispatch CANCEL_COMPLETE w, true)
        else (dispatch (FILE_STATUS_CHANGED (id file) completed) w, false).

(** [for (let i = 0; i < files.length; i++)], from index [i] on. *)
Fixpoint process_files (i : nat) (rest : list FileItem) (env : nat -> FileRun)
  (w : World) : World :=
  match rest with
  | [] => w
  | file :: rest' =>
      let (w', break) := process_file i file (env i) w in
      if break then w' else process_files (S i) rest' env w'
  end.

(** [handleStart], called with the [files] of the current render. *)
Definition handleStart (env : nat -> FileRun) (w : World) : World :=
  let files := files (state w) in
  let w := dispatch REMOVE_BACKGROUND_BUTTON_CLICKED w in
  let w := process_files 0 files env w in
  if negb (isCancellingRef w) then dispatch PROCESSING_COMPLETED w
  else dispatch CANCEL_COMPLETE w.

(** The component as rendered in state [s], before [handleStart] is called:
    the reference cell holds the rendered [isCancelling], and no state of the
    run has been produced yet. *)
Definition start (s : AppState) : World :=
  {| state := s; isCancellingRef := isCancelling_of s; history := [] |}.

Definition run (env : nat -> FileRun) (s : AppState) : World :=
  handleStart env (start s).

(** ** The [useState]-driven [App] component ([src/App.tsx]) *)

Module Legacy.

Record State := {
  files : list FileItem;
  outputFolder : option string;
  isDragging : bool;
  isProcessing : bool;
  processedFiles : JsMap.t FileStatus;
  currentProcessingIndex : Z;
  cancelledRef : bool
}.

Definition setProcessedFiles
  (f : JsMap.t FileStatus -> JsMap.t FileStatus) (s : State) : State :=
  {| files := files s; outputFolder := outputFolder s;
     isDragging := isDragging s; isProcessing := isProcessing s;
     processedFiles := f (processedFiles s);
     currentProcessingIndex := currentProcessingIndex s;
     cancelledRef := cancelledRef s |}.

Definition setCurrentProcessingIndex (i : Z) (s : State) : State :=
  {| files := files s; outputFolder := outputFolder s;
     isDragging := isDragging s; isProcessing := isProcessing s;
     processedFiles := processedFiles s;
     currentProcessingIndex := i;
     cancelledRef := cancelledRef s |}.

Definition setIsProcessing (b : bool) (s : State) : State :=
  {| files := files s; outputFolder := outputFolder s;
     isDragging := isDragging s; isProcessing := b;
     processedFiles := processedFiles s;
     currentProcessingIndex := currentProcessingIndex s;
     cancelledRef := cancelledRef s |}.

Definition setCancelledRef (b : bool) (s : State) : State :=
  {| files := files s; outputFolder := outputFolder s;
     isDragging := isDragging s; isProcessing := isProcessing s;
     processedFiles := processedFiles s;
     currentProcessingIndex := currentProcessingIndex s;
     cancelledRef := b |}.

Definition isComplete (s : State) : bool :=
  if Nat.eqb (List.length (files s)) 0 then false
  else if Nat.eqb (JsMap.size (processedFiles s)) 0 then false
  else forallb finished (JsMap.values (processedFiles s)).

(** [getProgress]: from the index of the file being processed (shown only
    when there are files, so that the divisor is positive). *)
Definition getProgress (s : State) : Z :=
  if isComplete s then 100%Z
  else percentage (currentProcessingIndex s) (Z.of_nat (List.length (files s))).

Definition shown_status (s : State) (file : FileItem) : FileStatus :=
  match JsMap.get (processedFiles s) (id file) with
  | Some st => st
  | None => pending
  end.

(** The [onClick] of the "Cancel" button. *)
Definition cancel_onClick (s : State) : State :=
  let s := setCancelledRef true s in
  let s := setIsProcessing false s in
  (* clear all processed files *)
  setProcessedFiles (fun _ => JsMap.empty) s.

(** The button is rendered while processing and not complete. *)
Definition click_cancel (s : State) : State :=
  if negb (isComplete s) && isProcessing s then cancel_onClick s else s.

Definition await (cancel_clicked : bool) (s : State) : State :=
  if cancel_clicked then click_cancel s else s.

Definition process_file (i : nat) (file : FileItem) (r : FileRun) (s : State)
  : State * bool :=
  if cancelledRef s then (s, true)
  else
    let s := setCurrentProcessingIndex (Z.of_nat i) s in
    let s := setProcessedFiles
               (fun prev => JsMap.set prev (id file) processing) s in
    let catch (s : State) :=
      (setProcessedFiles (fun prev => JsMap.set prev (id file) error) s,
       false) in
    let s := await (cancel_during_generateMask r) s in
    if negb (generateMask_ok r) then catch s
    else
      let s := await (cancel_during_applyMask r) s in
      if negb (applyMask_ok r) then catch s
      else
        let s := await (cancel_during_save r) s in
        if negb (save_ok r) then catch s
        else if cancelledRef s then (s, true)
        else
          (setProcessedFiles
             (fun prev => JsMap.set prev (id file) completed) s,
           false).

Fixpoint process_files (i : nat) (rest : list FileItem)
  (env : nat -> FileRun) (s : State) : State :=
  match rest with
  | [] => s
  | file :: rest' =>
      let (s', break) := process_file i file (env i) s in
      if break then s' else process_files (S i) rest' env s'
  end.

Definition no_outputFolder (s : State) : bool :=
  match outputFolder s with
  | Some folder => String.eqb folder EmptyString
  | None => true
  end.

Definition handleStart (env : nat -> FileRun) (s : State) : State :=
  if no_outputFolder s then s (* "Output folder not selected" *)
  else
    let s := setCancelledRef false s in
    let s := setProcessedFiles (fun _ => initialStatus (files s)) s in
    let s := setCurrentProcessingIndex 0 s in
    let s := setIsProcessing true s in
    let s := process_files 0 (files s) env s in
    setIsProcessing false s.

End Legacy.

(** ** [services/photo.ts] *)

Module Photo.

Open Scope Z_scope.

(** A decoded image: its size and its pixels, four bytes R, G, B, A per
    pixel, row after row (the layout of [ImageData.data]). *)
Record Image := {
  width : Z;
  height : Z;
  pixels : list Z
}.

(** The loop of [applyMask] over [imageData.data]:
    [brightness = (data[i] + data[i + 1] + data[i + 2]) / 3] and
    [data[i + 3] = brightness], [i] advancing by 4.  The store into the
    [Uint8ClampedArray] converts the number to a byte. *)
Fixpoint luma_to_alpha (data : list Z) : list Z :=
  match data with
  | r :: g :: b :: _ :: rest =>
      let brightness :=
        PrimFloat.div (JsNumber.Number_of_Z (r + g + b)) 3%float in
      r :: g :: b :: JsNumber.ToUint8Clamp brightness :: luma_to_alpha rest
  | _ => data
  end.

(** The product of two alpha bytes as a byte, [a * b / 255] rounded to the
    nearest integer. *)
Definition mul255 (a b : Z) : Z := (a * b + 127) / 255.

(** Drawing [src] over the canvas [dst] with
    [globalCompositeOperation = "source-in"] (Porter-Duff "source in":
    the colour of the source, the product of the two alphas; the canvas
    colour is dropped; a pixel of alpha 0 is transparent black). *)
Fixpoint source_in (src dst : list Z) : list Z :=
  match src, dst with
  | sr :: sg :: sb :: sa :: src', _ :: _ :: _ :: da :: dst' =>
      let a := mul255 sa da in
      (if a =? 0 then [0; 0; 0; 0] else [sr; sg; sb; a])
      ++ source_in src' dst'
  | _, _ => []
  end.

(** The canvas of [applyMask] once the photo is drawn: [data] is what
    [getImageData] returned for the stretched mask; the loop rewrites its
    alpha bytes, [putImageData] puts it back, and the photo is drawn
    "source-in". *)
Definition composite (photo_pixels data : list Z) : list Z :=
  source_in photo_pixels (luma_to_alpha data).

(** The [k]-th pixel of a buffer. *)
Definition pixel_at (data : list Z) (k : nat) : option (Z * Z * Z * Z) :=
  match skipn (4 * k) data with
  | r :: g :: b :: a :: _ => Some (r, g, b, a)
  | _ => None
  end.


Inductive Promise (A : Type) :=
| Resolved (value : A)
| Rejected (reason : string).

Arguments Rejected {A}.

Section Compositor.

(** The browser's algorithms: the pixels of a canvas of the given size
    after [drawImage(image, 0, 0, width, height)] on the cleared canvas
    (read by [getImageData]), and the PNG encoder of [toBlob]. *)
Variable drawImage_scaled : Image -> Z -> Z -> list Z.
Variable toBlob_png : Z -> Z -> list Z -> option (list Z).



End Compositor.

(** *** File names

    [basename] and [extname] come from [@tauri-apps/api/path]; they answer
    with Rust's [Path::file_name] and [Path::extension]: the last component
    of the path, and the part of that component after its last dot,
    without the dot.  Both reject when there is none. *)

Fixpoint split_on (sep : ascii) (s : string) : list string :=
  match s with
  | EmptyString => [EmptyString]
  | String c s' =>
      if Ascii.eqb c sep then EmptyString :: split_on sep s'
      else match split_on sep s' with
           | x :: xs => String c x :: xs
           | [] => [String c EmptyString]
           end
  end.

Definition basename (path : string) : option string :=
  let components :=
    filter (fun c => negb (String.eqb c EmptyString || String.eqb c "."))
           (split_on "/" path) in
  match rev components with
  | [] => None
  | last :: _ => if String.eqb last ".." then None else Some last
  end.

(** The position of the last dot. *)
Fixpoint rindex_dot (s : string) : option nat :=
  match s with
  | EmptyString => None
  | String c s' =>
      match rindex_dot s' with
      | Some i => Some (S i)
      | None => if Ascii.eqb c "." then Some O else None
      end
  end.

Definition extname (path : string) : option string :=
  match basename path with
  | None => None
  | Some file =>
      match rindex_dot file with
      | None => None
      | Some O => None
      | Some (S i) =>
          Some (substring (S (S i)) (String.length file - S (S i)) file)
      end
  end.

(** [s.replace(pattern, empty)], [empty] the empty string, with a string pattern: the first occurrence
    of the pattern is removed. *)
Definition replace_with_empty (s pattern : string) : string :=
  match String.index 0 pattern s with
  | Some i =>
      let after := (i + String.length pattern)%nat in
      substring 0 i s ++ substring after (String.length s - after) s
  | None => s
  end.

Definition createFileName (fileName : string) : option string :=
  match basename fileName with
  | None => None
  | Some baseFilename =>
      match extname fileName with
      | None => None
      | Some extension =>
          let nameWithoutExt := replace_with_empty baseFilename extension in
          Some (nameWithoutExt ++ "-clipped.png")%string
      end
  end.

End Photo.

(** ** Vocabulary of the properties *)

(** The [completedCount] of the reducer, for any status map. *)
Definition finished_count (m : JsMap.t FileStatus) : Z :=
  Z.of_nat (List.length (filter finished (JsMap.values m))).

Definition FileStatus_eqb (a b : FileStatus) : bool :=
  match a, b with
  | pending, pending | processing, processing
  | completed, completed | error, error => true
  | _, _ => false
  end.

(** The number of entries of a status map with a given status. *)
Definition count_status (st : FileStatus) (m : JsMap.t FileStatus) : nat :=
  List.length (filter (FileStatus_eqb st) (JsMap.values m)).

(** The status in which an iteration that is not cancelled leaves its file. *)
Definition outcome (r : FileRun) : FileStatus :=
  if generateMask_ok r && applyMask_ok r && save_ok r then completed
  else error.

(** "Cancel" is not clicked while this file is processed. *)
Definition no_click (r : FileRun) : bool :=
  negb (cancel_during_generateMask r) && negb (cancel_during_applyMask r)
  && negb (cancel_during_save r).

(** The entries of the files already processed, the first of them being the
    [i]-th file of the run. *)
Fixpoint results (env : nat -> FileRun) (i : nat) (done : list FileItem)
  : JsMap.t FileStatus :=
  match done with
  | [] => []
  | file :: done' => (id file, outcome (env i)) :: results env (S i) done'
  end.

(** The entries of the files not reached yet. *)
Definition pend (rest : list FileItem) : JsMap.t FileStatus :=
  map (fun file => (id file, pending)) rest.

(** [progress] is the rounded share of finished entries among [total]
    files, computed as the reducer computes it; 0 of [total] is 0 and
    [total] of [total] is 100. *)
Definition progress_agrees (total : Z) (req : ProcessingRequest) : Prop :=
  let count := finished_count (processedFiles req) in
  progress req = percentage count total
  \/ (count = 0%Z /\ progress req = 0%Z)
  \/ (count = total /\ progress req = 100%Z).

(** Every status that is finished in the earlier state is the same in the
    later state, as long as the later state has a run record. *)
Definition keeps (earlier later : AppState) : Prop :=
  forall req', processingRequest later = Some req' ->
  exists req, processingRequest earlier = Some req /\
  forall k v, JsMap.get (processedFiles req) k = Some v ->
              finished v = true ->
              JsMap.get (processedFiles req') k = Some v.

(** A state of a run over the files [fs]. *)
Definition Good (fs : list FileItem) (s : AppState) : Prop :=
  files s = fs /\
  forall req, processingRequest s = Some req ->
    JsMap.keys (processedFiles req) = map id fs /\
    progress_agrees (Z.of_nat (List.length fs)) req.

(** The run is under way with the status map [m] and the flag [c]. *)
Definition running (fs : list FileItem) (m : JsMap.t FileStatus) (c : bool)
  (s : AppState) : Prop :=
  exists d o p idx,
    s = {| isDragging := d; files := fs; outputFolder := o;
           processingRequest :=
             Some {| status := req_processing; progress := p;
                     processedFiles := m; currentProcessingIndex := idx;
                     isCancelling := c |} |}.

(** What holds of the states a run has been through. *)
Definition Hist (fs : list FileItem) (w : World) : Prop :=
  Forall (Good fs) (history w)
  /\ StronglySorted (fun later earlier => keeps earlier later) (history w)
  /\ Forall (fun s => keeps s (state w)) (history w).

Definition Stage (fs : list FileItem) (m : JsMap.t FileStatus) (c : bool)
  (w : World) : Prop :=
  Hist fs w /\ Good fs (state w) /\ running fs m c (state w)
  /\ isCancellingRef w = c
  /\ Forall (fun s => isCancelling_of s = true -> c = true) (history w).

(** The run record has been dropped after a checkpoint read the flag. *)
Definition Gone (fs : list FileItem) (w : World) : Prop :=
  Hist fs w /\ files (state w) = fs /\ processingRequest (state w) = None
  /\ isCancellingRef w = true.

(** ** Sample data *)

Definition photo_a : FileItem :=
  {| id := "id-a"; name := "a.jpg"; path := "a.jpg"; size := 1000;
     preview := "blob:a" |}.

Definition photo_b : FileItem :=
  {| id := "id-b"; name := "b.png"; path := "b.png"; size := 2000;
     preview := "blob:b" |}.

Definition photo_c : FileItem :=
  {| id := "id-c"; name := "c.svg"; path := "c.svg"; size := 3000;
     preview := "blob:c" |}.

(** Two files selected, an output folder chosen, no run. *)
Definition two_files : AppState :=
  {| isDragging := false; files := [photo_a; photo_b];
     outputFolder := Some "out"%string; processingRequest := None |}.

Definition three_files : AppState :=
  {| isDragging := false; files := [photo_a; photo_b; photo_c];
     outputFolder := Some "out"%string; processingRequest := None |}.

(** Every step resolves, nobody clicks. *)
Definition all_ok : FileRun :=
  {| generateMask_ok := true; cancel_during_generateMask := false;
     applyMask_ok := true; cancel_during_applyMask := false;
     save_ok := true; cancel_during_save := false |}.

(** [applyMask] rejects. *)
Definition applyMask_fails : FileRun :=
  {| generateMask_ok := true; cancel_during_generateMask := false;
     applyMask_ok := false; cancel_during_applyMask := false;
     save_ok := true; cancel_during_save := false |}.

(** "Cancel" is clicked while the mask is generated. *)
Definition cancel_while_masking : FileRun :=
  {| generateMask_ok := true; cancel_during_generateMask := true;
     applyMask_ok := true; cancel_during_applyMask := false;
     save_ok := true; cancel_during_save := false |}.

Definition smooth_run : nat -> FileRun := fun _ => all_ok.

(** The second file fails in the compositor. *)
Definition second_fails : nat -> FileRun :=
  fun i => if Nat.eqb i 1 then applyMask_fails else all_ok.

(** "Cancel" is clicked while the second file is processed. *)
Definition cancelled_at_second : nat -> FileRun :=
  fun i => if Nat.eqb i 1 then cancel_while_masking else all_ok.

(** The run record once [second_fails] has gone over [three_files]. *)
Definition second_failed_request : ProcessingRequest :=
  {| status := req_success; progress := 100;
     processedFiles :=
       [("id-a"%string, completed); ("id-b"%string, error);
        ("id-c"%string, completed)];
     currentProcessingIndex := 2; isCancelling := false |}.

Definition three_files_done : AppState :=
  with_processingRequest three_files (Some second_failed_request).

(** [two_files] right after "Remove background" was clicked. *)
Definition two_files_started : AppState :=
  appReducer two_files REMOVE_BACKGROUND_BUTTON_CLICKED.

(** The first of [two_files] is done, the second is being processed. *)
Definition first_done_request : ProcessingRequest :=
  {| status := req_processing; progress := 50;
     processedFiles :=
       [("id-a"%string, completed); ("id-b"%string, processing)];
     currentProcessingIndex := 1; isCancelling := false |}.

Definition two_files_first_done : AppState :=
  with_processingRequest two_files (Some first_done_request).

(** A one-pixel photo and a one-pixel mask behind two object URLs, for two
    pages that differ in everything else. *)
Definition tiny_photo : Photo.Image :=
  {| Photo.width := 1; Photo.height := 1; Photo.pixels := [10; 20; 30; 255]%Z |}.

Definition tiny_mask : Photo.Image :=
  {| Photo.width := 1; Photo.height := 1;
     Photo.pixels := [128; 128; 128; 255]%Z |}.





(** ** The handlers of the component that only dispatch *)




(** The drop zone takes files when [!isProcessing && !isComplete()]. *)
Definition drop_enabled (s : AppState) : bool :=
  negb (isProcessing s) && negb (isComplete s).

(** The "Reset" button is the one rendered when [isComplete()]. *)
Definition reset_button_shown (s : AppState) : bool := isComplete s.

(** ** Vocabulary of the further properties *)

(** The state differs from [s0] in its run record at most. *)
Definition same_frame (s0 s : AppState) : Prop :=
  files s = files s0 /\ outputFolder s = outputFolder s0
  /\ isDragging s = isDragging s0.

(** The actions that [handleStart] and the "Cancel" button dispatch. *)
Definition run_action (a : AppAction) : bool :=
  match a with
  | REMOVE_BACKGROUND_BUTTON_CLICKED | FILE_STATUS_CHANGED _ _
  | PROCESSING_PROGRESS_CHANGED _ | PROCESSING_COMPLETED
  | CANCEL_BUTTON_CLICKED | CANCEL_COMPLETE => true
  | _ => false
  end.

Definition FrameW (s0 : AppState) (w : World) : Prop :=
  same_frame s0 (state w) /\ Forall (same_frame s0) (history w).

(** The status map lists the files in their order: first those that are
    done, each with the status its iteration ended in, then at most one file
    that is being processed, then the files that wait. *)
Definition in_file_order (fs : list FileItem) (env : nat -> FileRun)
  (m : JsMap.t FileStatus) : Prop :=
  exists done current rest,
    fs = done ++ current ++ rest
    /\ (List.length current <= 1)%nat
    /\ m = results env 0 done
           ++ map (fun file => (id file, processing)) current
           ++ pend rest.

(** The three kinds of state a run goes through. *)
Definition visited (fs : list FileItem) (env : nat -> FileRun)
  (s : AppState) : Prop :=
  processingRequest s = None
  \/ (exists req, processingRequest s = Some req
                  /\ status req = req_processing
                  /\ in_file_order fs env (processedFiles req))
  \/ (exists req, processingRequest s = Some req
                  /\ status req = req_success
                  /\ progress req = 100%Z
                  /\ processedFiles req = results env 0 fs).

(** One step in the life of a file: no change, [pending] to [processing],
    or [processing] to [completed] or [error]. *)
Definition status_step (before after : option FileStatus) : Prop :=
  after = before
  \/ (before = Some pending /\ after = Some processing)
  \/ (before = Some processing
      /\ (after = Some completed \/ after = Some error)).

(** Between two states with a run record every file makes one step. *)
Definition one_step (earlier later : AppState) : Prop :=
  forall req req',
    processingRequest earlier = Some req ->
    processingRequest later = Some req' ->
    forall k, status_step (JsMap.get (processedFiles req) k)
                          (JsMap.get (processedFiles req') k).

(** A property of each state of a list and the state before it (the list
    has the latest state first). *)
Fixpoint adjacent (R : AppState -> AppState -> Prop) (l : list AppState)
  : Prop :=
  match l with
  | later :: l' =>
      match l' with
      | earlier :: _ => R earlier later /\ adjacent R l'
      | [] => True
      end
  | [] => True
  end.

(** [processingRequest?.currentProcessingIndex ?? 0] *)
Definition currentProcessingIndex_of (s : AppState) : Z :=
  match processingRequest s with
  | Some req => currentProcessingIndex req
  | None => 0%Z
  end.

(** Since the earlier state, where cancellation is requested, no file has
    changed its status, except that a file that was being processed may have
    failed. *)
Definition after_cancel (earlier later : AppState) : Prop :=
  isCancelling_of earlier = true ->
  forall req req',
    processingRequest earlier = Some req ->
    processingRequest later = Some req' ->
    forall k v, JsMap.get (processedFiles req) k = Some v ->
      JsMap.get (processedFiles req') k = Some v
      \/ (v = processing /\ JsMap.get (processedFiles req') k = Some error).

(** What the loop keeps about the index: the states are ordered by it, each
    state has it within bounds, and none has it above the number of files
    that are finished now. *)
Definition IndexInv (n : Z) (w : World) : Prop :=
  hd_error (history w) = Some (state w)
  /\ StronglySorted
       (fun later earlier =>
          processingRequest later <> None ->
          (currentProcessingIndex_of earlier
           <= currentProcessingIndex_of later)%Z)
       (history w)
  /\ Forall (fun s => forall req, processingRequest s = Some req ->
               (0 <= currentProcessingIndex req
                <= finished_count (processedFiles req))%Z
               /\ (currentProcessingIndex req < n
                   \/ currentProcessingIndex req = 0)%Z)
            (history w)
  /\ Forall (fun s => forall req', processingRequest (state w) = Some req' ->
               (currentProcessingIndex_of s
                <= finished_count (processedFiles req'))%Z)
            (history w).

(** What the loop keeps about cancellation: [after_cancel] between any two
    states, and between any state and the current one. *)
Definition CancelInv (w : World) : Prop :=
  StronglySorted (fun later earlier => after_cancel earlier later) (history w)
  /\ Forall (fun s => after_cancel s (state w)) (history w).

(** "Cancel" is clicked while the mask of the first file is generated, and
    the generation fails. *)
Definition cancelled_and_failed (i : nat) : FileRun :=
  {| generateMask_ok := false; cancel_during_generateMask := Nat.eqb i 0;
     applyMask_ok := true; cancel_during_applyMask := false;
     save_ok := true; cancel_during_save := false |}.

(** The run record of [two_files] when "Cancel" has been clicked while the
    first file is processed, and when that file has failed afterwards. *)
Definition cancel_requested_request : ProcessingRequest :=
  {| status := req_processing; progress := 0;
     processedFiles :=
       [("id-a"%string, processing); ("id-b"%string, pending)];
     currentProcessingIndex := 0; isCancelling := true |}.

Definition failed_after_cancel_request : ProcessingRequest :=
  {| status := req_processing; progress := 50;
     processedFiles := [("id-a"%string, error); ("id-b"%string, pending)];
     currentProcessingIndex := 0; isCancelling := true |}.

(** ** The rest of the photo service: the model and the written file *)

Module Service.

Section Model.

(** The library [@axols/webai-js]: what the [n]-th run of
    [WebAI.create(...)] followed by [webai.init(...)] ends in, and what
    [webai.generate] answers as [result_mask] for an image. *)
Variable WebAI : Type.
Variable create_and_init : nat -> Photo.Promise WebAI.
Variable generate : WebAI -> string -> Photo.Promise string.

(** The variable [webai] of the module, a promise once it is set, and the
    number of times the model has been created. *)
Record Memory := {
  webai : option (Photo.Promise WebAI);
  created : nat
}.

(** The module as loaded: [let webai: Promise<WebAI> | undefined]. *)
Definition loaded : Memory := {| webai := None; created := 0 |}.

(** [getWebAI]: [if (!webai) { webai = (async () => ...)() }; return webai]. *)
Definition getWebAI (m : Memory) : Photo.Promise WebAI * Memory :=
  match webai m with
  | Some promise => (promise, m)
  | None =>
      let promise := create_and_init (created m) in
      (promise, {| webai := Some promise; created := S (created m) |})
  end.

(** [generateMask]: [await getWebAI()], then [generate] on the image. *)
Definition generateMask (m : Memory) (imageBlobUrl : string)
  : Photo.Promise string * Memory :=
  let (promise, m) := getWebAI m in
  match promise with
  | Photo.Resolved webai => (generate webai imageBlobUrl, m)
  | Photo.Rejected reason => (Photo.Rejected reason, m)
  end.

(** Calls of [generateMask] one after the other, as the loop of
    [handleStart] makes them. *)
Fixpoint generateMask_each (m : Memory) (urls : list string)
  : list (Photo.Promise string) * Memory :=
  match urls with
  | [] => ([], m)
  | url :: urls' =>
      let (mask, m) := generateMask m url in
      let (masks, m) := generateMask_each m urls' in
      (mask :: masks, m)
  end.

End Model.

Section Files.

(** [join] of [@tauri-apps/api/path], and the paths that [writeFile] of
    [@tauri-apps/plugin-fs] may write. *)
Variable join : string -> string -> string.
Variable writable : string -> bool.

(** The files on disk: the bytes behind each path. *)
Definition Disk := string -> option (list Z).

(** [writeFile(path, bytes)]: the file is created or replaced. *)
Definition writeFile (disk : Disk) (path : string) (bytes : list Z)
  : Photo.Promise unit * Disk :=
  if writable path
  then (Photo.Resolved tt,
        fun p => if String.eqb p path then Some bytes else disk p)
  else (Photo.Rejected "write failed", disk).

Definition save (disk : Disk) (outputFolder originalFilename : string)
  (bytes : list Z) : Photo.Promise unit * Disk :=
  match Photo.createFileName originalFilename with
  | None => (Photo.Rejected "no file name", disk)
  | Some newFileName =>
      let filePath := join outputFolder newFileName in
      writeFile disk filePath bytes
  end.

End Files.

End Service.

(** The character occurs in the string. *)
Fixpoint has_char (c : ascii) (s : string) : bool :=
  match s with
  | EmptyString => false
  | String d s' => Ascii.eqb d c || has_char c s'
  end.

(** One of the three steps of the file fails, and "Cancel" is clicked while
    that step or an earlier one is awaited. *)
Definition click_then_failure (r : FileRun) : bool :=
  if negb (generateMask_ok r) then cancel_during_generateMask r
  else if negb (applyMask_ok r)
       then cancel_during_generateMask r || cancel_during_applyMask r
       else if negb (save_ok r)
            then cancel_during_generateMask r || cancel_during_applyMask r
                 || cancel_during_save r
            else false.

(** The component of [App.tsx] with two files and an output folder. *)
Definition legacy_two_files : Legacy.State :=
  {| Legacy.files := [photo_a; photo_b];
     Legacy.outputFolder := Some "out"%string;
     Legacy.isDragging := false; Legacy.isProcessing := false;
     Legacy.processedFiles := JsMap.empty;
     Legacy.currentProcessingIndex := 0; Legacy.cancelledRef := false |}.

(** ** Status maps *)

Arguments percentage : simpl never.

Section MapFacts.
Variable V : Type.
Implicit Types (m p q : JsMap.t V) (k : string) (v : V).

Lemma set_at p q k v0 v :
  ~ In k (JsMap.keys p) ->
  JsMap.set (p ++ (k, v0) :: q) k v = p ++ (k, v) :: q.
Proof.
  induction p as [|[k' v'] p IH]; simpl; intros Hk.
  - now rewrite String.eqb_refl.
  - destruct (String.eqb_spec k' k) as [->|_]; [tauto|].
    f_equal. apply IH. tauto.
Qed.

Lemma set_fresh m k v :
  ~ In k (JsMap.keys m) -> JsMap.set m k v = m ++ [(k, v)].
Proof.
  induction m as [|[k' v'] m IH]; simpl; intros Hk; [reflexivity|].
  destruct (String.eqb_spec k' k) as [->|_]; [tauto|].
  f_equal. apply IH. tauto.
Qed.

Lemma get_at p q k v0 :
  ~ In k (JsMap.keys p) -> JsMap.get (p ++ (k, v0) :: q) k = Some v0.
Proof.
  induction p as [|[k' v'] p IH]; simpl; intros Hk.
  - now rewrite String.eqb_refl.
  - destruct (String.eqb_spec k' k) as [->|_]; [tauto|].
    apply IH. tauto.
Qed.

Lemma get_set_same m k v : JsMap.get (JsMap.set m k v) k = Some v.
Proof.
  induction m as [|[k' v'] m IH]; simpl.
  - now rewrite String.eqb_refl.
  - destruct (String.eqb_spec k' k) as [->|Hne]; simpl.
    + now rewrite String.eqb_refl.
    + destruct (String.eqb_spec k' k); [contradiction|exact IH].
Qed.

Lemma get_set_other m k v k' :
  k' <> k -> JsMap.get (JsMap.set m k v) k' = JsMap.get m k'.
Proof.
  intros Hne. induction m as [|[k0 v0] m IH]; simpl.
  - destruct (String.eqb_spec k k'); [congruence|reflexivity].
  - destruct (String.eqb_spec k0 k) as [->|Hk0]; simpl.
    + destruct (String.eqb_spec k k'); [congruence|reflexivity].
    + destruct (String.eqb_spec k0 k'); [reflexivity|exact IH].
Qed.

Lemma get_in_keys m k v : JsMap.get m k = Some v -> In k (JsMap.keys m).
Proof.
  induction m as [|[k0 v0] m IH]; simpl; [discriminate|].
  destruct (String.eqb_spec k0 k) as [->|_]; auto.
Qed.

Lemma keys_app p q : JsMap.keys (p ++ q) = JsMap.keys p ++ JsMap.keys q.
Proof. apply map_app. Qed.

Lemma values_app p q :
  JsMap.values (p ++ q) = JsMap.values p ++ JsMap.values q.
Proof. apply map_app. Qed.

End MapFacts.

Lemma keys_pend rest : JsMap.keys (pend rest) = map id rest.
Proof. unfold pend, JsMap.keys. rewrite map_map. reflexivity. Qed.

Lemma keys_results env i done : JsMap.keys (results env i done) = map id done.
Proof.
  revert i. induction done as [|f done IH]; intros i; simpl; [reflexivity|].
  f_equal. apply IH.
Qed.

Lemma results_snoc env i done file :
  results env i (done ++ [file])
  = results env i done ++ [(id file, outcome (env (i + List.length done)%nat))].
Proof.
  revert i. induction done as [|f done IH]; intros i; simpl.
  - now rewrite Nat.add_0_r.
  - f_equal. rewrite IH. simpl. now rewrite Nat.add_succ_r.
Qed.

Lemma initialStatus_from acc l :
  NoDup (JsMap.keys acc ++ map id l) ->
  fold_left (fun m file => JsMap.set m (id file) pending) l acc
  = acc ++ pend l.
Proof.
  revert acc. induction l as [|f l IH]; intros acc Hnd; simpl.
  - now rewrite app_nil_r.
  - rewrite set_fresh.
    + rewrite IH.
      * now rewrite <- app_assoc.
      * rewrite keys_app. simpl. rewrite <- app_assoc. exact Hnd.
    + apply NoDup_remove_2 in Hnd. intros Hin. apply Hnd.
      apply in_or_app. now left.
Qed.

Lemma initialStatus_pend fs :
  NoDup (map id fs) -> initialStatus fs = pend fs.
Proof.
  intros Hnd. unfold initialStatus. now rewrite initialStatus_from.
Qed.

(** *** Counting *)

Lemma finished_count_app p q :
  finished_count (p ++ q) = (finished_count p + finished_count q)%Z.
Proof.
  unfold finished_count. rewrite values_app, filter_app, length_app. lia.
Qed.

Lemma finished_count_pend rest : finished_count (pend rest) = 0%Z.
Proof.
  unfold finished_count. induction rest as [|f rest IH]; simpl; auto.
Qed.

Lemma outcome_finished r : finished (outcome r) = true.
Proof. unfold outcome. now destruct (_ && _). Qed.

Lemma finished_count_results env i done :
  finished_count (results env i done) = Z.of_nat (List.length done).
Proof.
  unfold finished_count. f_equal. revert i.
  induction done as [|f done IH]; intros i; simpl; [reflexivity|].
  rewrite outcome_finished. simpl. f_equal. apply IH.
Qed.

Lemma finished_count_cons k v m :
  finished_count ((k, v) :: m)
  = ((if finished v then 1 else 0) + finished_count m)%Z.
Proof.
  unfold finished_count, JsMap.values. cbn [map snd filter].
  destruct (finished v); cbn [List.length];
    [rewrite Nat2Z.inj_succ|]; lia.
Qed.

Lemma finished_count_table env done k v rest :
  finished_count (results env 0 done ++ (k, v) :: pend rest)
  = (Z.of_nat (List.length done) + (if finished v then 1 else 0))%Z.
Proof.
  rewrite finished_count_app, finished_count_results, finished_count_cons,
    finished_count_pend. lia.
Qed.

(** ** The states of a run *)

Lemma keeps_refl s : keeps s s.
Proof. intros req Hreq. exists req. auto. Qed.

Lemma keeps_trans a b c : keeps a b -> keeps b c -> keeps a c.
Proof.
  intros Hab Hbc rc Hc.
  destruct (Hbc rc Hc) as (rb & Hb & Hbc').
  destruct (Hab rb Hb) as (ra & Ha & Hab').
  exists ra. split; [exact Ha|]. intros k v Hk Hv. auto.
Qed.

Lemma keeps_gone a b : processingRequest b = None -> keeps a b.
Proof. intros Hb req Hreq. congruence. Qed.

Lemma keeps_same_map a b ra rb :
  processingRequest a = Some ra -> processingRequest b = Some rb ->
  processedFiles rb = processedFiles ra -> keeps a b.
Proof.
  intros Ha Hb Hm req Hreq. exists ra. split; [exact Ha|].
  intros k v Hk _. congruence.
Qed.

Lemma keeps_set a b ra rb k v :
  processingRequest a = Some ra -> processingRequest b = Some rb ->
  processedFiles rb = JsMap.set (processedFiles ra) k v ->
  (forall v0, JsMap.get (processedFiles ra) k = Some v0 -> finished v0 = false) ->
  keeps a b.
Proof.
  intros Ha Hb Hm Hcur req Hreq. exists ra. split; [exact Ha|].
  intros k' v' Hk' Hv'. replace req with rb by congruence. rewrite Hm.
  destruct (String.eqb_spec k' k) as [->|Hne].
  - rewrite (Hcur _ Hk') in Hv'. discriminate.
  - now rewrite get_set_other.
Qed.

Lemma Hist_start fs s : Hist fs (start s).
Proof. repeat split; constructor. Qed.

Lemma Hist_first fs s a :
  Good fs (appReducer s a) -> Hist fs (dispatch a (start s)).
Proof.
  intros Hg. unfold Hist, dispatch; simpl. repeat split.
  - constructor; [exact Hg|constructor].
  - constructor; constructor.
  - constructor; [apply keeps_refl|constructor].
Qed.

Lemma Hist_dispatch fs w a :
  Hist fs w ->
  Good fs (appReducer (state w) a) ->
  keeps (state w) (appReducer (state w) a) ->
  Hist fs (dispatch a w).
Proof.
  intros (Hg & Hs & Hk) Hg' Hk'. unfold Hist, dispatch; simpl.
  assert (Hall : Forall (fun s => keeps s (appReducer (state w) a)) (history w)).
  { eapply Forall_impl; [|exact Hk]. intros s Hs'. simpl in Hs'.
    eapply keeps_trans; eauto. }
  repeat split.
  - constructor; assumption.
  - constructor; assumption.
  - constructor; [apply keeps_refl|exact Hall].
Qed.

Lemma Hist_render fs w : Hist fs w -> Hist fs (render w).
Proof. intros H. exact H. Qed.

Unset Implicit Arguments.

Section Run.

Variable fs : list FileItem.
Variable env : nat -> FileRun.
Hypothesis fs_nodup : NoDup (map id fs).

Let total : Z := Z.of_nat (List.length fs).

Lemma Good_running d o p idx m c :
  JsMap.keys m = map id fs ->
  (p = percentage (finished_count m) total
   \/ (finished_count m = 0%Z /\ p = 0%Z)
   \/ (finished_count m = total /\ p = 100%Z)) ->
  Good fs {| isDragging := d; files := fs; outputFolder := o;
             processingRequest :=
               Some {| status := req_processing; progress := p;
                       processedFiles := m; currentProcessingIndex := idx;
                       isCancelling := c |} |}.
Proof.
  intros Hk Hp. split; [reflexivity|]. simpl. intros req [= <-]. simpl.
  split; [exact Hk|exact Hp].
Qed.

Lemma split_not_in (done rest : list FileItem) file :
  fs = done ++ file :: rest -> ~ In (id file) (map id done).
Proof.
  intros Hfs Hin. pose proof fs_nodup as Hnd. rewrite Hfs, map_app in Hnd.
  simpl in Hnd. apply NoDup_remove_2 in Hnd. apply Hnd.
  apply in_or_app. now left.
Qed.

Lemma split_total (done rest : list FileItem) file :
  fs = done ++ file :: rest -> (0 <? total)%Z = true.
Proof.
  intros Hfs. unfold total. rewrite Hfs, length_app. simpl.
  apply Z.ltb_lt. lia.
Qed.

Lemma keys_table done file v rest :
  fs = done ++ file :: rest ->
  JsMap.keys (results env 0 done ++ (id file, v) :: pend rest) = map id fs.
Proof.
  intros ->. rewrite keys_app, keys_results. simpl. rewrite keys_pend.
  now rewrite map_app.
Qed.

(** [processingProgressChanged(i)], before the [i]-th file. *)
Lemma stage_progress done file rest c w :
  fs = done ++ file :: rest ->
  Stage fs (results env 0 done ++ pend (file :: rest)) c w ->
  Stage fs (results env 0 done ++ pend (file :: rest)) c
    (dispatch (PROCESSING_PROGRESS_CHANGED (Z.of_nat (List.length done))) w).
Proof.
  intros Hfs (Hh & _ & (d & o & p & idx & Hs) & Href & Hflag).
  assert (Hnext :
    appReducer (state w) (PROCESSING_PROGRESS_CHANGED (Z.of_nat (List.length done)))
    = {| isDragging := d; files := fs; outputFolder := o;
         processingRequest :=
           Some {| status := req_processing;
                   progress := percentage (Z.of_nat (List.length done)) total;
                   processedFiles := results env 0 done ++ pend (file :: rest);
                   currentProcessingIndex := Z.of_nat (List.length done);
                   isCancelling := c |} |}).
  { rewrite Hs. unfold appReducer, with_processingRequest. cbn -[percentage pend].
    fold total. now rewrite (split_total _ _ _ Hfs). }
  assert (Hgood : Good fs (appReducer (state w)
            (PROCESSING_PROGRESS_CHANGED (Z.of_nat (List.length done))))).
  { rewrite Hnext. apply Good_running; [now apply keys_table|]. left.
    simpl pend. now rewrite finished_count_table, Z.add_0_r. }
  split; [|split; [|split; [|split]]].
  - apply Hist_dispatch; [exact Hh|exact Hgood|]. rewrite Hnext, Hs.
    eapply keeps_same_map; reflexivity.
  - exact Hgood.
  - unfold dispatch; cbn [state]. rewrite Hnext. now do 4 eexists.
  - exact Href.
  - cbn [dispatch history]. constructor; [now rewrite Hnext|exact Hflag].
Qed.

(** [fileStatusChanged(file.id, v)] for the file being processed. *)
Lemma stage_status done file cur v rest c w :
  fs = done ++ file :: rest ->
  finished cur = false ->
  Stage fs (results env 0 done ++ (id file, cur) :: pend rest) c w ->
  Stage fs (results env 0 done ++ (id file, v) :: pend rest) c
    (dispatch (FILE_STATUS_CHANGED (id file) v) w).
Proof.
  intros Hfs Hcur (Hh & _ & (d & o & p & idx & Hs) & Href & Hflag).
  assert (Hnotin : ~ In (id file) (JsMap.keys (results env 0 done))).
  { rewrite keys_results. eapply split_not_in; eauto. }
  assert (Hnext :
    appReducer (state w) (FILE_STATUS_CHANGED (id file) v)
    = {| isDragging := d; files := fs; outputFolder := o;
         processingRequest :=
           Some {| status := req_processing;
                   progress :=
                     percentage
                       (finished_count
                          (results env 0 done ++ (id file, v) :: pend rest))
                       total;
                   processedFiles :=
                     results env 0 done ++ (id file, v) :: pend rest;
                   currentProcessingIndex := idx;
                   isCancelling := c |} |}).
  { rewrite Hs. unfold appReducer, with_processingRequest, updateMap.
    cbn -[percentage pend JsMap.set]. fold total.
    rewrite (split_total _ _ _ Hfs), set_at by exact Hnotin. reflexivity. }
  assert (Hgood : Good fs (appReducer (state w)
            (FILE_STATUS_CHANGED (id file) v))).
  { rewrite Hnext. apply Good_running; [now apply keys_table|]. now left. }
  split; [|split; [|split; [|split]]].
  - apply Hist_dispatch; [exact Hh|exact Hgood|]. rewrite Hnext, Hs.
    eapply keeps_set; try reflexivity.
    + simpl. symmetry. now apply set_at.
    + simpl. intros v0. rewrite get_at by exact Hnotin. congruence.
  - exact Hgood.
  - unfold dispatch; cbn [state]. rewrite Hnext. now do 4 eexists.
  - exact Href.
  - cbn [dispatch history]. constructor; [now rewrite Hnext|exact Hflag].
Qed.

(** An awaited step: the flag may be raised meanwhile, never lowered. *)
Lemma stage_await m b c w :
  Stage fs m c w ->
  exists c', Stage fs m c' (await b w)
             /\ (b = false -> c' = c) /\ (c = true -> c' = true).
Proof.
  intros (Hh & Hg & (d & o & p & idx & Hs) & Href & Hflag).
  assert (Hic : isCancelling_of (state w) = c) by now rewrite Hs.
  assert (Hrender : Stage fs m c (render w)).
  { split; [exact Hh|split; [exact Hg|split; [|split]]].
    - cbn. now exists d, o, p, idx.
    - exact Hic.
    - exact Hflag. }
  unfold await. destruct b; [|exists c; auto].
  unfold click_cancel. cbn [render state].
  destruct (cancel_button_enabled (state w)) eqn:Hen;
    [|exists c; split; [|split; auto; discriminate]].
  - exists true. split; [|split; auto; discriminate].
    assert (Hnext :
      appReducer (state w) CANCEL_BUTTON_CLICKED
      = {| isDragging := d; files := fs; outputFolder := o;
           processingRequest :=
             Some {| status := req_processing; progress := p;
                     processedFiles := m; currentProcessingIndex := idx;
                     isCancelling := true |} |}).
    { rewrite Hs. reflexivity. }
    assert (Hgood : Good fs (appReducer (state w) CANCEL_BUTTON_CLICKED)).
    { rewrite Hnext. destruct Hg as (_ & Hg). rewrite Hs in Hg.
      destruct (Hg _ eq_refl) as (Hk & Hp).
      split; [reflexivity|]. intros req [= <-]. split; [exact Hk|exact Hp]. }
    split; [|split; [|split; [|split]]].
    + apply Hist_render.
      apply (Hist_dispatch (w := render w) CANCEL_BUTTON_CLICKED);
        [exact Hh|exact Hgood|].
      cbn [render state]. rewrite Hnext, Hs. eapply keeps_same_map; reflexivity.
    + exact Hgood.
    + cbn [render dispatch state]. rewrite Hnext. now do 4 eexists.
    + cbn [render dispatch state isCancellingRef]. now rewrite Hnext.
    + apply Forall_forall. reflexivity.
  - exact Hrender.
Qed.

(** [cancelComplete()] once a checkpoint has read the flag. *)
Lemma stage_cancelled m w :
  Stage fs m true w -> Gone fs (dispatch CANCEL_COMPLETE w).
Proof.
  intros (Hh & Hg & (d & o & p & idx & Hs) & Href & _).
  assert (Hnext : appReducer (state w) CANCEL_COMPLETE
                  = {| isDragging := d; files := fs; outputFolder := o;
                       processingRequest := None |}).
  { rewrite Hs. reflexivity. }
  split; [|split; [|split]].
  - apply Hist_dispatch; [exact Hh| |]; rewrite Hnext.
    + split; [reflexivity|]. simpl. discriminate.
    + now apply keeps_gone.
  - cbn [dispatch state]. now rewrite Hnext.
  - cbn [dispatch state]. now rewrite Hnext.
  - exact Href.
Qed.

Lemma no_click_inv r :
  no_click r = true ->
  cancel_during_generateMask r = false
  /\ cancel_during_applyMask r = false
  /\ cancel_during_save r = false.
Proof.
  unfold no_click.
  destruct (cancel_during_generateMask r), (cancel_during_applyMask r),
    (cancel_during_save r); simpl; intros H; try discriminate; auto.
Qed.

Lemma table_snoc done file rest :
  results env 0 (done ++ [file]) ++ pend rest
  = results env 0 done
    ++ (id file, outcome (env (List.length done))) :: pend rest.
Proof. rewrite results_snoc, <- app_assoc. reflexivity. Qed.

(** One iteration of the loop. *)
Lemma process_file_spec done file rest c w w' brk :
  fs = done ++ file :: rest ->
  Stage fs (results env 0 done ++ pend (file :: rest)) c w ->
  process_file (List.length done) file (env (List.length done)) w = (w', brk) ->
  (if brk then Gone fs w'
   else exists c',
       Stage fs (results env 0 (done ++ [file]) ++ pend rest) c' w'
       /\ (no_click (env (List.length done)) = true -> c' = c))
  /\ (c = false -> no_click (env (List.length done)) = true -> brk = false).
Proof.
  intros Hfs HS. set (r := env (List.length done)).
  assert (Href : isCancellingRef w = c) by apply HS.
  unfold process_file. rewrite Href. destruct c.
  { intros [= <- <-]. split; [eapply stage_cancelled; exact HS|discriminate]. }
  pose proof (stage_progress _ _ _ _ _ Hfs HS) as S1.
  pose proof (stage_status _ _ pending processing _ _ _ Hfs eq_refl S1) as S2.
  destruct (stage_await _ (cancel_during_generateMask r) _ _ S2) as (c1 & S3 & Hq1 & _).
  match type of S3 with Stage _ _ _ ?x => set (w3 := x) in * end.
  clearbody w3. clear S1 S2.
  assert (R3 : isCancellingRef w3 = c1) by apply S3.
  destruct (generateMask_ok r) eqn:G; cbn [negb].
  2: { intros [= <- <-]. split; [|reflexivity]. exists c1. split.
       - rewrite table_snoc. fold r.
         replace (outcome r) with error by (unfold outcome; now rewrite G).
         apply (stage_status _ _ processing error _ _ _ Hfs eq_refl S3).
       - intros Hq. apply Hq1. now apply no_click_inv. }
  rewrite R3. destruct c1.
  { intros [= <- <-]. split; [eapply stage_cancelled; exact S3|].
    intros _ Hq. apply no_click_inv in Hq. now rewrite (Hq1 (proj1 Hq)). }
  destruct (stage_await _ (cancel_during_applyMask r) _ _ S3)
    as (c2 & S4 & Hq2 & _).
  match type of S4 with Stage _ _ _ ?x => set (w4 := x) in * end.
  clearbody w4. clear S3 R3 w3.
  assert (R4 : isCancellingRef w4 = c2) by apply S4.
  destruct (applyMask_ok r) eqn:A; cbn [negb].
  2: { intros [= <- <-]. split; [|reflexivity]. exists c2. split.
       - rewrite table_snoc. fold r.
         replace (outcome r) with error
           by (unfold outcome; now rewrite G, A).
         apply (stage_status _ _ processing error _ _ _ Hfs eq_refl S4).
       - intros Hq. apply Hq2. now apply no_click_inv. }
  rewrite R4. destruct c2.
  { intros [= <- <-]. split; [eapply stage_cancelled; exact S4|].
    intros _ Hq. apply no_click_inv in Hq.
    now rewrite (Hq2 (proj1 (proj2 Hq))). }
  destruct (stage_await _ (cancel_during_save r) _ _ S4)
    as (c3 & S5 & Hq3 & _).
  match type of S5 with Stage _ _ _ ?x => set (w5 := x) in * end.
  clearbody w5. clear S4 R4 w4.
  assert (R5 : isCancellingRef w5 = c3) by apply S5.
  destruct (save_ok r) eqn:Sv; cbn [negb].
  2: { intros [= <- <-]. split; [|reflexivity]. exists c3. split.
       - rewrite table_snoc. fold r.
         replace (outcome r) with error
           by (unfold outcome; now rewrite G, A, Sv).
         apply (stage_status _ _ processing error _ _ _ Hfs eq_refl S5).
       - intros Hq. apply Hq3. now apply no_click_inv. }
  rewrite R5. destruct c3.
  { intros [= <- <-]. split; [eapply stage_cancelled; exact S5|].
    intros _ Hq. apply no_click_inv in Hq.
    now rewrite (Hq3 (proj2 (proj2 Hq))). }
  intros [= <- <-]. split; [|reflexivity]. exists false. split; [|reflexivity].
  rewrite table_snoc. fold r.
  replace (outcome r) with completed by (unfold outcome; now rewrite G, A, Sv).
  apply (stage_status _ _ processing completed _ _ _ Hfs eq_refl S5).
Qed.

(** The loop from the file after [done] on. *)
Lemma process_files_spec rest : forall done c w,
  fs = done ++ rest ->
  Stage fs (results env 0 done ++ pend rest) c w ->
  let w' := process_files (List.length done) rest env w in
  (Gone fs w' \/ exists c', Stage fs (results env 0 fs) c' w')
  /\ (c = false -> (forall i, no_click (env i) = true) ->
      Stage fs (results env 0 fs) false w').
Proof.
  induction rest as [|file rest IH]; intros done c w Hfs HS; cbn zeta.
  - simpl. rewrite app_nil_r in Hfs. subst done.
    unfold pend in HS; simpl in HS. rewrite app_nil_r in HS.
    split; [right; now exists c|]. intros -> _. exact HS.
  - cbn [process_files].
    destruct (process_file (List.length done) file (env (List.length done)) w)
      as [w1 brk] eqn:E.
    destruct (process_file_spec _ _ _ _ _ _ _ Hfs HS E) as (Hpost & Hquiet).
    destruct brk.
    + split; [now left|]. intros Hc Hq. specialize (Hquiet Hc (Hq _)).
      discriminate.
    + destruct Hpost as (c' & S' & Hc').
      assert (Hfs' : fs = (done ++ [file]) ++ rest)
        by now rewrite <- app_assoc.
      specialize (IH (done ++ [file]) c' w1 Hfs' S').
      rewrite length_app, Nat.add_1_r in IH. cbn zeta in IH.
      destruct IH as (IH1 & IH2). split; [exact IH1|].
      intros Hc Hq. apply IH2; [|exact Hq]. rewrite Hc' by apply Hq.
      exact Hc.
Qed.

Lemma Gone_cancelled w : Gone fs w -> Gone fs (dispatch CANCEL_COMPLETE w).
Proof.
  intros (Hh & Hf & Hn & Href).
  assert (Hnext : appReducer (state w) CANCEL_COMPLETE
                  = with_processingRequest (state w) None) by reflexivity.
  split; [|split; [|split]].
  - apply Hist_dispatch; [exact Hh| |]; rewrite Hnext.
    + split; [exact Hf|]. simpl. discriminate.
    + now apply keeps_gone.
  - exact Hf.
  - reflexivity.
  - exact Href.
Qed.

(** [processingCompleted()] after the last file. *)
Lemma stage_completed w :
  Stage fs (results env 0 fs) false w ->
  Hist fs (dispatch PROCESSING_COMPLETED w)
  /\ Forall (fun s => isCancelling_of s = false)
            (history (dispatch PROCESSING_COMPLETED w))
  /\ exists d o idx,
      state (dispatch PROCESSING_COMPLETED w)
      = {| isDragging := d; files := fs; outputFolder := o;
           processingRequest :=
             Some {| status := req_success; progress := 100;
                     processedFiles := results env 0 fs;
                     currentProcessingIndex := idx;
                     isCancelling := false |} |}.
Proof.
  intros (Hh & Hg & (d & o & p & idx & Hs) & Href & Hflag).
  assert (Hnext :
    appReducer (state w) PROCESSING_COMPLETED
    = {| isDragging := d; files := fs; outputFolder := o;
         processingRequest :=
           Some {| status := req_success; progress := 100;
                   processedFiles := results env 0 fs;
                   currentProcessingIndex := idx;
                   isCancelling := false |} |}).
  { rewrite Hs. reflexivity. }
  split; [|split].
  - apply Hist_dispatch; [exact Hh| |]; rewrite Hnext.
    + split; [reflexivity|]. intros req [= <-]. simpl. split.
      * apply keys_results.
      * right; right. simpl. split; [apply finished_count_results|reflexivity].
    + rewrite Hs. eapply keeps_same_map; reflexivity.
  - cbn [dispatch history]. constructor; [now rewrite Hnext|].
    eapply Forall_impl; [|exact Hflag]. intros s Hs'. simpl in Hs'.
    destruct (isCancelling_of s); [now specialize (Hs' eq_refl)|reflexivity].
  - exists d, o, idx. exact Hnext.
Qed.

(** [removeBackgroundButtonClicked()], the first dispatch of a run. *)
Lemma stage_started s0 :
  files s0 = fs -> isCancelling_of s0 = false ->
  Stage fs (results env 0 [] ++ pend fs) false
    (dispatch REMOVE_BACKGROUND_BUTTON_CLICKED (start s0)).
Proof.
  intros Hf Hc.
  assert (Hnext :
    appReducer s0 REMOVE_BACKGROUND_BUTTON_CLICKED
    = {| isDragging := isDragging s0; files := fs;
         outputFolder := outputFolder s0;
         processingRequest :=
           Some {| status := req_processing; progress := 0;
                   processedFiles := pend fs;
                   currentProcessingIndex := 0;
                   isCancelling := false |} |}).
  { unfold appReducer, with_processingRequest.
    now rewrite Hf, initialStatus_pend. }
  assert (Hgood : Good fs (appReducer s0 REMOVE_BACKGROUND_BUTTON_CLICKED)).
  { rewrite Hnext. split; [reflexivity|]. intros req [= <-]. simpl. split.
    - apply keys_pend.
    - right; left. simpl. split; [apply finished_count_pend|reflexivity]. }
  split; [|split; [|split; [|split]]].
  - now apply Hist_first.
  - exact Hgood.
  - cbn [dispatch start state]. rewrite Hnext. simpl app. now do 4 eexists.
  - exact Hc.
  - cbn [dispatch start state history]. rewrite Hnext.
    constructor; [discriminate|constructor].
Qed.

(** A whole run of [handleStart]. *)
Lemma run_spec s0 :
  files s0 = fs -> isCancelling_of s0 = false ->
  let w := run env s0 in
  Hist fs w
  /\ files (state w) = fs
  /\ (isCancellingRef w = true -> processingRequest (state w) = None)
  /\ (isCancellingRef w = false ->
      Forall (fun s => isCancelling_of s = false) (history w)
      /\ exists req, processingRequest (state w) = Some req
                     /\ status req = req_success /\ progress req = 100%Z
                     /\ processedFiles req = results env 0 fs)
  /\ ((forall i, no_click (env i) = true) -> isCancellingRef w = false).
Proof.
  intros Hf Hc. cbn zeta. unfold run, handleStart.
  cbn [start state]. rewrite Hf.
  pose proof (stage_started s0 Hf Hc) as S1.
  destruct (process_files_spec fs [] false _ eq_refl S1) as (Hend & Hquiet).
  cbn zeta in Hend, Hquiet. cbn [List.length] in Hend, Hquiet.
  fold (start s0).
  set (w2 := process_files 0 fs env
               (dispatch REMOVE_BACKGROUND_BUTTON_CLICKED (start s0))) in *.
  clearbody w2.
  assert (Hq : (forall i, no_click (env i) = true) -> isCancellingRef w2 = false).
  { intros Hall. apply (Hquiet eq_refl Hall). }
  clear Hquiet S1.
  destruct Hend as [Hg|(c' & S2)].
  - assert (Href : isCancellingRef w2 = true) by apply Hg.
    rewrite Href in *. cbn [negb].
    destruct (Gone_cancelled _ Hg) as (Hh & Hfs & Hn & Href').
    refine (conj Hh (conj Hfs (conj (fun _ => Hn) (conj _ _)))).
    + rewrite Href'. discriminate.
    + intros Hall. now specialize (Hq Hall).
  - assert (Href : isCancellingRef w2 = c') by apply S2.
    rewrite Href in *. destruct c'; cbn [negb].
    + destruct (stage_cancelled _ _ S2) as (Hh & Hfs & Hn & Href').
      refine (conj Hh (conj Hfs (conj (fun _ => Hn) (conj _ _)))).
      * rewrite Href'. discriminate.
      * intros Hall. now specialize (Hq Hall).
    + destruct (stage_completed _ S2) as (Hh & Hfl & d & o & idx & Hs).
      refine (conj Hh (conj _ (conj _ (conj _ _)))).
      * now rewrite Hs.
      * cbn [dispatch isCancellingRef]. rewrite Href. discriminate.
      * intros _. split; [exact Hfl|].
        rewrite Hs. eexists. split; [reflexivity|]. now simpl.
      * intros _. cbn [dispatch isCancellingRef]. exact Href.
Qed.

End Run.

(** ** The loop of [App.tsx] *)

Lemma legacy_process_file_quiet i file r s :
  Legacy.cancelledRef s = false ->
  no_click r = true ->
  Legacy.process_file i file r s
  = (Legacy.setProcessedFiles
       (fun prev =>
          JsMap.set (JsMap.set prev (id file) processing) (id file) (outcome r))
       (Legacy.setCurrentProcessingIndex (Z.of_nat i) s),
     false).
Proof.
  intros Hc Hq. destruct (no_click_inv _ Hq) as (Q1 & Q2 & Q3).
  unfold Legacy.process_file, outcome. rewrite Hc, Q1, Q2, Q3.
  unfold Legacy.await. cbn [Legacy.cancelledRef Legacy.setProcessedFiles
    Legacy.setCurrentProcessingIndex]. rewrite Hc.
  destruct (generateMask_ok r), (applyMask_ok r), (save_ok r); reflexivity.
Qed.

Lemma legacy_quiet_loop env fs :
  NoDup (map id fs) ->
  (forall i, no_click (env i) = true) ->
  forall rest done s,
    fs = done ++ rest ->
    Legacy.cancelledRef s = false ->
    Legacy.processedFiles s = results env 0 done ++ pend rest ->
    let s' := Legacy.process_files (List.length done) rest env s in
    Legacy.processedFiles s' = results env 0 fs
    /\ Legacy.files s' = Legacy.files s.
Proof.
  intros Hnd Hq. induction rest as [|file rest IH]; intros done s Hfs Hc Hm.
  - simpl. rewrite app_nil_r in Hfs. subst done.
    unfold pend in Hm; simpl in Hm. rewrite app_nil_r in Hm. now split.
  - cbn [Legacy.process_files].
    rewrite legacy_process_file_quiet by auto.
    assert (Hnotin : ~ In (id file) (JsMap.keys (results env 0 done))).
    { rewrite keys_results. eapply split_not_in; eauto. }
    assert (Hfs' : fs = (done ++ [file]) ++ rest) by now rewrite <- app_assoc.
    specialize (IH (done ++ [file])
      (Legacy.setProcessedFiles
         (fun prev =>
            JsMap.set (JsMap.set prev (id file) processing) (id file)
              (outcome (env (List.length done))))
         (Legacy.setCurrentProcessingIndex (Z.of_nat (List.length done)) s))
      Hfs' Hc).
    rewrite length_app, Nat.add_1_r in IH. apply IH.
    cbn [Legacy.processedFiles Legacy.setProcessedFiles
         Legacy.setCurrentProcessingIndex].
    rewrite Hm. simpl pend. rewrite !set_at by exact Hnotin.
    now rewrite table_snoc.
Qed.

Lemma legacy_quiet_run env s :
  NoDup (map id (Legacy.files s)) ->
  (forall i, no_click (env i) = true) ->
  Legacy.no_outputFolder s = false ->
  Legacy.processedFiles (Legacy.handleStart env s)
  = results env 0 (Legacy.files s)
  /\ Legacy.files (Legacy.handleStart env s) = Legacy.files s
  /\ Legacy.isProcessing (Legacy.handleStart env s) = false.
Proof.
  intros Hnd Hq Hout. unfold Legacy.handleStart. rewrite Hout.
  cbn [Legacy.files Legacy.setCancelledRef Legacy.setProcessedFiles
       Legacy.setCurrentProcessingIndex Legacy.setIsProcessing
       Legacy.processedFiles Legacy.isProcessing].
  match goal with
  | |- context [Legacy.process_files 0 ?l env ?st] =>
      destruct (legacy_quiet_loop env (Legacy.files s) Hnd Hq l [] st
                  eq_refl eq_refl) as (Hm & Hf)
  end.
  - cbn [Legacy.processedFiles]. now rewrite initialStatus_pend.
  - cbn zeta in Hm, Hf. cbn [List.length] in Hm, Hf.
    split; [exact Hm|split; [exact Hf|reflexivity]].
Qed.

Lemma results_all_finished env l : forall i,
  forallb finished (JsMap.values (results env i l)) = true.
Proof.
  induction l as [|f l IH]; intros i; simpl; [reflexivity|].
  now rewrite outcome_finished, IH.
Qed.

Lemma results_size env l : forall i,
  JsMap.size (results env i l) = List.length l.
Proof.
  unfold JsMap.size. induction l as [|f l IH]; intros i; simpl; auto.
Qed.

(** ** More on status maps *)

Lemma results_app env i a b :
  results env i (a ++ b)
  = results env i a ++ results env (i + List.length a) b.
Proof.
  revert i. induction a as [|f a IH]; intros i; simpl.
  - now rewrite Nat.add_0_r.
  - rewrite IH. now rewrite Nat.add_succ_r.
Qed.

Lemma count_status_app st p q :
  count_status st (p ++ q) = (count_status st p + count_status st q)%nat.
Proof.
  unfold count_status. now rewrite values_app, filter_app, length_app.
Qed.

Lemma count_results_all_completed env l : forall i,
  (forall j, (i <= j < i + List.length l)%nat -> outcome (env j) = completed) ->
  count_status completed (results env i l) = List.length l
  /\ count_status error (results env i l) = O.
Proof.
  induction l as [|f l IH]; intros i Hall; [now split|].
  destruct (IH (S i)) as (IHc & IHe).
  { intros j Hj. apply Hall. simpl. lia. }
  unfold count_status in *. cbn [results JsMap.values map snd filter].
  fold (JsMap.values (results env (S i) l)).
  rewrite (Hall i) by (simpl; lia). cbn [FileStatus_eqb List.length].
  now rewrite IHc, IHe.
Qed.

Lemma outcome_completed r :
  generateMask_ok r = true /\ applyMask_ok r = true /\ save_ok r = true ->
  outcome r = completed.
Proof. unfold outcome. intros (-> & -> & ->). reflexivity. Qed.

Lemma outcome_error r :
  generateMask_ok r = false \/ applyMask_ok r = false \/ save_ok r = false ->
  outcome r = error.
Proof.
  unfold outcome. intros [H|[H|H]]; rewrite H;
    destruct (generateMask_ok r), (applyMask_ok r), (save_ok r);
    reflexivity || discriminate.
Qed.

Lemma get_set_eq (V : Type) (m : JsMap.t V) k v k' :
  JsMap.get (JsMap.set m k v) k'
  = if String.eqb k k' then Some v else JsMap.get m k'.
Proof.
  destruct (String.eqb_spec k k') as [<-|Hne].
  - apply get_set_same.
  - apply get_set_other. congruence.
Qed.

Lemma in_keys_set (V : Type) (m : JsMap.t V) k v k' :
  In k' (JsMap.keys (JsMap.set m k v)) <-> k' = k \/ In k' (JsMap.keys m).
Proof.
  induction m as [|[k0 v0] m IH]; simpl.
  - intuition congruence.
  - destruct (String.eqb_spec k0 k) as [->|Hne]; simpl.
    + intuition congruence.
    + rewrite IH. intuition congruence.
Qed.

(** Every file is [pending] in the initial map, which has no other key
    (whether or not two files share an id). *)
Lemma initialStatus_all_pending fs :
  (forall file, In file fs ->
     JsMap.get (initialStatus fs) (id file) = Some pending)
  /\ (forall k, In k (JsMap.keys (initialStatus fs)) -> In k (map id fs)).
Proof.
  unfold initialStatus.
  assert (H : forall l acc,
    let m := fold_left (fun m file => JsMap.set m (id file) pending) l acc in
    (forall k, In k (JsMap.keys acc) -> JsMap.get acc k = Some pending) ->
    (forall k, In k (JsMap.keys m) ->
       JsMap.get m k = Some pending
       /\ (In k (JsMap.keys acc) \/ In k (map id l)))
    /\ (forall k, In k (JsMap.keys acc) \/ In k (map id l) ->
          In k (JsMap.keys m))).
  { induction l as [|f l IH]; intros acc m Hacc; subst m; simpl.
    - split; [intros k Hk; split; auto|]. intros k [Hk|[]]. exact Hk.
    - destruct (IH (JsMap.set acc (id f) pending)) as (IH1 & IH2).
      { intros k Hk. rewrite get_set_eq.
        destruct (String.eqb_spec (id f) k); [reflexivity|].
        apply Hacc. apply in_keys_set in Hk. destruct Hk; congruence. }
      split.
      + intros k Hk. destruct (IH1 k Hk) as (Hget & Hin). split; [exact Hget|].
        destruct Hin as [Hin|Hin]; [|now right; right].
        apply in_keys_set in Hin. destruct Hin as [->|Hin]; auto.
      + intros k Hk. apply IH2. rewrite in_keys_set.
        destruct Hk as [Hk|[Hk|Hk]]; auto. }
  destruct (H fs JsMap.empty) as (H1 & H2); [intros k []|].
  split.
  - intros file Hin. apply H1. apply H2. right. now apply in_map.
  - intros k Hk. destruct (H1 k Hk) as (_ & [[]|Hin]). exact Hin.
Qed.

Lemma StronglySorted_later (A : Type) (R : A -> A -> Prop) newer x older :
  StronglySorted R (newer ++ x :: older) -> Forall (R x) older.
Proof.
  induction newer as [|y newer IH]; simpl; intros H.
  - now apply StronglySorted_inv in H.
  - apply StronglySorted_inv in H. apply IH, H.
Qed.

(** ** The reducer without a run record *)

(** C10: when the state has no run record ([processingRequest] is absent),
    the actions [FILE_STATUS_CHANGED], [PROCESSING_PROGRESS_CHANGED],
    [PROCESSING_COMPLETED] and [CANCEL_BUTTON_CLICKED] return the state
    unchanged: they neither fail nor create a record. *)
Theorem no_run_record_no_op
  (s : AppState) (fileId : string) (st : FileStatus) (index : Z) :
  processingRequest s = None ->
  appReducer s (FILE_STATUS_CHANGED fileId st) = s
  /\ appReducer s (PROCESSING_PROGRESS_CHANGED index) = s
  /\ appReducer s PROCESSING_COMPLETED = s
  /\ appReducer s CANCEL_BUTTON_CLICKED = s.
Proof.
  intros H. unfold appReducer. rewrite H. repeat split.
Qed.

Lemma no_run_record_no_op_witness :
  processingRequest two_files = None
  /\ (appReducer two_files (FILE_STATUS_CHANGED "id-a" completed) = two_files
      /\ appReducer two_files (PROCESSING_PROGRESS_CHANGED 1) = two_files
      /\ appReducer two_files PROCESSING_COMPLETED = two_files
      /\ appReducer two_files CANCEL_BUTTON_CLICKED = two_files).
Proof.
  split; [reflexivity|].
  apply (no_run_record_no_op two_files "id-a" completed 1). reflexivity.
Defined.

(** ** The status map during a run *)

Lemma run_states_good env s0 s :
  NoDup (map id (files s0)) -> isCancelling_of s0 = false ->
  In s (history (run env s0)) -> Good (files s0) s.
Proof.
  intros Hnd Hc Hin.
  destruct (run_spec (files s0) env Hnd s0 eq_refl Hc) as ((Hg & _) & _).
  rewrite Forall_forall in Hg. now apply Hg.
Qed.

(** C8: in every state of a run that has a run record, the status map has
    exactly one entry per file of the list the run was started with, in the
    order of the list, and the list itself is unchanged: no entry is added
    for another id and none is removed. *)
Theorem status_map_has_one_entry_per_file
  (env : nat -> FileRun) (s0 s : AppState) (req : ProcessingRequest) :
  NoDup (map id (files s0)) ->
  isCancelling_of s0 = false ->
  In s (history (run env s0)) ->
  processingRequest s = Some req ->
  files s = files s0
  /\ JsMap.keys (processedFiles req) = map id (files s0)
  /\ JsMap.size (processedFiles req) = List.length (files s0).
Proof.
  intros Hnd Hc Hin Hreq.
  destruct (run_states_good env s0 s Hnd Hc Hin) as (Hf & Hg).
  destruct (Hg req Hreq) as (Hk & _).
  split; [exact Hf|split; [exact Hk|]].
  unfold JsMap.size. rewrite <- (length_map fst). fold (JsMap.keys (processedFiles req)).
  rewrite Hk. apply length_map.
Qed.

Ltac distinct_ids :=
  repeat constructor; simpl; intuition discriminate.

Lemma status_map_has_one_entry_per_file_witness :
  files three_files_done = files three_files
  /\ JsMap.keys (processedFiles second_failed_request)
     = map id (files three_files)
  /\ JsMap.size (processedFiles second_failed_request)
     = List.length (files three_files).
Proof.
  apply (status_map_has_one_entry_per_file second_fails three_files
           three_files_done second_failed_request).
  - distinct_ids.
  - reflexivity.
  - vm_compute. left. reflexivity.
  - reflexivity.
Defined.

(** ** Failures of single files *)

(** C7: in a run that is not cancelled, where one file fails in one of the
    three steps (mask generation, compositing, writing) and every other file
    goes through, the run ends with status [success] and progress 100; its
    status map has one [error] entry, which is the one of the failed file,
    and [completed] for each of the other files.  The loop of [App.tsx]
    ends with the same status map, not processing any more, and shows
    progress 100. *)
Theorem one_failure_does_not_abort
  (env : nat -> FileRun) (s0 : AppState) (k : nat) :
  NoDup (map id (files s0)) ->
  isCancelling_of s0 = false ->
  (forall i, no_click (env i) = true) ->
  (k < List.length (files s0))%nat ->
  (generateMask_ok (env k) = false \/ applyMask_ok (env k) = false
   \/ save_ok (env k) = false) ->
  (forall i, i <> k ->
     generateMask_ok (env i) = true /\ applyMask_ok (env i) = true
     /\ save_ok (env i) = true) ->
  exists req,
    processingRequest (state (run env s0)) = Some req
    /\ status req = req_success
    /\ progress req = 100%Z
    /\ JsMap.keys (processedFiles req) = map id (files s0)
    /\ count_status error (processedFiles req) = 1%nat
    /\ count_status completed (processedFiles req)
       = (List.length (files s0) - 1)%nat
    /\ (forall file, nth_error (files s0) k = Some file ->
          JsMap.get (processedFiles req) (id file) = Some error)
    /\ (forall ls,
          Legacy.files ls = files s0 ->
          Legacy.no_outputFolder ls = false ->
          Legacy.processedFiles (Legacy.handleStart env ls)
          = processedFiles req
          /\ Legacy.isProcessing (Legacy.handleStart env ls) = false
          /\ Legacy.getProgress (Legacy.handleStart env ls) = 100%Z).
Proof.
  intros Hnd Hc Hquiet Hk Hfail Hothers.
  destruct (run_spec (files s0) env Hnd s0 eq_refl Hc)
    as (_ & _ & _ & Hdone & Hq).
  destruct (Hdone (Hq Hquiet)) as (_ & req & Hreq & Hst & Hp & Hm).
  exists req. rewrite Hm. split; [exact Hreq|split; [exact Hst|split; [exact Hp|]]].
  split; [apply keys_results|].
  assert (Hlegacy : forall ls,
    Legacy.files ls = files s0 ->
    Legacy.no_outputFolder ls = false ->
    Legacy.processedFiles (Legacy.handleStart env ls) = results env 0 (files s0)
    /\ Legacy.isProcessing (Legacy.handleStart env ls) = false
    /\ Legacy.getProgress (Legacy.handleStart env ls) = 100%Z).
  { intros ls Hls Hout.
    destruct (legacy_quiet_run env ls) as (Lm & Lf & Lp);
      [now rewrite Hls|exact Hquiet|exact Hout|].
    rewrite Hls in Lm, Lf. split; [exact Lm|split; [exact Lp|]].
    unfold Legacy.getProgress, Legacy.isComplete. rewrite Lm, Lf.
    rewrite results_size, results_all_finished.
    destruct (files s0); [simpl in Hk; lia|reflexivity]. }
  destruct (nth_error (files s0) k) as [file|] eqn:Hnth;
    [|apply nth_error_None in Hnth; lia].
  destruct (nth_error_split _ _ Hnth) as (l1 & l2 & Hsplit & Hlen).
  rewrite Hsplit in *. clear Hnth.
  refine (conj _ (conj _ (conj _ Hlegacy))); clear Hlegacy;
    rewrite results_app; cbn [results]; rewrite Nat.add_0_l, Hlen;
    rewrite (outcome_error _ Hfail).
  - destruct (count_results_all_completed env l1 0) as (_ & E1).
    { intros j Hj. apply outcome_completed, Hothers. lia. }
    destruct (count_results_all_completed env l2 (S k)) as (_ & E2).
    { intros j Hj. apply outcome_completed, Hothers. lia. }
    rewrite count_status_app, E1. unfold count_status in *.
    cbn [JsMap.values map snd filter FileStatus_eqb List.length].
    fold (JsMap.values (results env (S k) l2)). now rewrite E2.
  - destruct (count_results_all_completed env l1 0) as (C1 & _).
    { intros j Hj. apply outcome_completed, Hothers. lia. }
    destruct (count_results_all_completed env l2 (S k)) as (C2 & _).
    { intros j Hj. apply outcome_completed, Hothers. lia. }
    rewrite count_status_app, C1. unfold count_status in *.
    cbn [JsMap.values map snd filter FileStatus_eqb List.length].
    fold (JsMap.values (results env (S k) l2)). rewrite C2.
    rewrite length_app. simpl. lia.
  - intros f [= <-]. apply get_at. rewrite keys_results.
    rewrite map_app in Hnd. simpl in Hnd. apply NoDup_remove_2 in Hnd.
    intros Hin. apply Hnd. apply in_or_app. now left.
Qed.

Lemma one_failure_does_not_abort_witness :
  exists req,
    processingRequest (state (run second_fails three_files)) = Some req
    /\ status req = req_success
    /\ progress req = 100%Z
    /\ JsMap.keys (processedFiles req) = map id (files three_files)
    /\ count_status error (processedFiles req) = 1%nat
    /\ count_status completed (processedFiles req)
       = (List.length (files three_files) - 1)%nat
    /\ (forall file, nth_error (files three_files) 1 = Some file ->
          JsMap.get (processedFiles req) (id file) = Some error)
    /\ (forall ls,
          Legacy.files ls = files three_files ->
          Legacy.no_outputFolder ls = false ->
          Legacy.processedFiles (Legacy.handleStart second_fails ls)
          = processedFiles req
          /\ Legacy.isProcessing (Legacy.handleStart second_fails ls) = false
          /\ Legacy.getProgress (Legacy.handleStart second_fails ls) = 100%Z).
Proof.
  apply (one_failure_does_not_abort second_fails three_files 1).
  - distinct_ids.
  - reflexivity.
  - intros i. unfold second_fails. destruct (Nat.eqb i 1); reflexivity.
  - simpl. lia.
  - right. left. reflexivity.
  - intros i Hi. unfold second_fails.
    destruct (Nat.eqb_spec i 1); [contradiction|repeat split].
Defined.

(** ** Progress *)

Example percentage_2_of_4 : percentage 2 4 = 50%Z.
Proof. vm_compute. reflexivity. Qed.

Example percentage_1_of_3 : percentage 1 3 = 33%Z.
Proof. vm_compute. reflexivity. Qed.

(** [(23 / 40) * 100] is [57.49999999999999] in doubles. *)
Example percentage_23_of_40 : percentage 23 40 = 57%Z.
Proof. vm_compute. reflexivity. Qed.




(** ** Cancellation *)

Lemma run_history_sorted env s0 :
  NoDup (map id (files s0)) -> isCancelling_of s0 = false ->
  StronglySorted (fun later earlier => keeps earlier later)
    (history (run env s0)).
Proof.
  intros Hnd Hc.
  destruct (run_spec (files s0) env Hnd s0 eq_refl Hc) as ((_ & Hs & _) & _).
  exact Hs.
Qed.

(** C5, as the code has it: as long as the run record exists, a file whose
    status is [completed] or [error] keeps that status ([history] lists the
    states of the run, the latest first); a click on "Cancel" changes no
    status, so the file in flight is not forced to [error]; once a
    checkpoint has seen the cancellation the record is dropped with every
    status, and every file is shown as [pending]; in [App.tsx] the click
    itself clears the status map. *)
Theorem finished_status_kept_until_record_dropped
  (env : nat -> FileRun) (s0 : AppState) :
  NoDup (map id (files s0)) ->
  isCancelling_of s0 = false ->
  (forall newer later between earlier older,
     history (run env s0)
     = newer ++ later :: between ++ earlier :: older ->
     keeps earlier later)
  /\ (forall s, In s (history (run env s0)) ->
        processedFiles_of (appReducer s CANCEL_BUTTON_CLICKED)
        = processedFiles_of s)
  /\ (isCancellingRef (run env s0) = true ->
      processingRequest (state (run env s0)) = None
      /\ forall file, shown_status (state (run env s0)) file = pending)
  /\ (forall ls file,
        Legacy.shown_status (Legacy.cancel_onClick ls) file = pending).
Proof.
  intros Hnd Hc. split; [|split; [|split]]; [| | |reflexivity].
  - intros newer later between earlier older Hh.
    pose proof (run_history_sorted env s0 Hnd Hc) as Hs. rewrite Hh in Hs.
    apply StronglySorted_later in Hs. rewrite Forall_forall in Hs.
    apply Hs. apply in_or_app. right. now left.
  - intros s _. destruct s as [d f o [r|]]; reflexivity.
  - intros Href.
    destruct (run_spec (files s0) env Hnd s0 eq_refl Hc)
      as (_ & _ & Hgone & _).
    specialize (Hgone Href). split; [exact Hgone|].
    intros file. unfold shown_status, processedFiles_of. now rewrite Hgone.
Qed.

Lemma finished_status_kept_until_record_dropped_witness :
  (forall newer later between earlier older,
     history (run cancelled_at_second two_files)
     = newer ++ later :: between ++ earlier :: older ->
     keeps earlier later)
  /\ (forall s, In s (history (run cancelled_at_second two_files)) ->
        processedFiles_of (appReducer s CANCEL_BUTTON_CLICKED)
        = processedFiles_of s)
  /\ (isCancellingRef (run cancelled_at_second two_files) = true ->
      processingRequest (state (run cancelled_at_second two_files)) = None
      /\ forall file,
           shown_status (state (run cancelled_at_second two_files)) file
           = pending)
  /\ (forall ls file,
        Legacy.shown_status (Legacy.cancel_onClick ls) file = pending).
Proof.
  apply (finished_status_kept_until_record_dropped cancelled_at_second
           two_files).
  - distinct_ids.
  - reflexivity.
Defined.

(** C5 as stated fails: when the run over [two_files] is cancelled while
    the second file is processed, the first file is [completed] before the
    cancellation is seen, and is shown as [pending] after it: the run record
    with its status map is gone. *)
Lemma cancelled_run_forgets_finished_files :
  In two_files_first_done (history (run cancelled_at_second two_files))
  /\ shown_status two_files_first_done photo_a = completed
  /\ isCancellingRef (run cancelled_at_second two_files) = true
  /\ processingRequest (state (run cancelled_at_second two_files)) = None
  /\ shown_status (state (run cancelled_at_second two_files)) photo_a
     = pending.
Proof.
  split; [vm_compute; do 3 right; left; reflexivity|].
  repeat split.
Qed.




(** ** Starting a run *)

Lemma start_button_guard s :
  start_button_enabled s = true ->
  files s <> []
  /\ (exists folder, outputFolder s = Some folder /\ folder <> EmptyString)
  /\ isProcessing s = false
  /\ isComplete s = false.
Proof.
  unfold start_button_enabled, no_outputFolder.
  destruct (isComplete s), (isProcessing s); simpl; try discriminate.
  destruct (files s) as [|f l]; simpl; [discriminate|].
  destruct (outputFolder s) as [folder|]; simpl; [|discriminate].
  destruct (String.eqb_spec folder EmptyString); simpl; [discriminate|].
  intros _. repeat split; try discriminate. now exists folder.
Qed.

(** C6, as the code has it: starting a run never fails.  Whatever the
    state, [REMOVE_BACKGROUND_BUTTON_CLICKED] leaves the files and the output
    folder alone and installs a run record with status [processing],
    progress 0, index 0, no cancellation, and a status map in which every
    file is [pending] and no other id occurs.  What keeps a run from being
    started without files, without output folder or during a run is the
    "Remove background" button, which can only be clicked when there are
    files, an output folder and no run being processed; the [handleStart]
    of [App.tsx] returns without touching the state when there is no output
    folder. *)
Theorem start_installs_a_fresh_run (s : AppState) :
  (exists req,
     appReducer s REMOVE_BACKGROUND_BUTTON_CLICKED
     = with_processingRequest s (Some req)
     /\ status req = req_processing
     /\ progress req = 0%Z
     /\ currentProcessingIndex req = 0%Z
     /\ isCancelling req = false
     /\ (forall file, In file (files s) ->
           JsMap.get (processedFiles req) (id file) = Some pending)
     /\ (forall k, In k (JsMap.keys (processedFiles req)) ->
           In k (map id (files s))))
  /\ (start_button_enabled s = true ->
      files s <> []
      /\ (exists folder, outputFolder s = Some folder /\ folder <> EmptyString)
      /\ isProcessing s = false
      /\ isComplete s = false)
  /\ (forall env ls,
        Legacy.no_outputFolder ls = true -> Legacy.handleStart env ls = ls).
Proof.
  split; [|split].
  - eexists. split; [reflexivity|]. cbn [status progress currentProcessingIndex
      isCancelling processedFiles].
    destruct (initialStatus_all_pending (files s)) as (H1 & H2).
    repeat split; assumption.
  - apply start_button_guard.
  - intros env ls H. unfold Legacy.handleStart. now rewrite H.
Qed.

(** C6 as stated fails: [handleStart] on the initial state, which has
    neither files nor output folder, starts a run and completes it, so the
    state has changed; and "Remove background" dispatched during a run
    (the first file done, the second in progress) does not fail either: it
    replaces the run by a fresh one. *)
Lemma start_never_fails :
  start_button_enabled initialState = false
  /\ state (run smooth_run initialState) <> initialState
  /\ (exists req,
        processingRequest (state (run smooth_run initialState)) = Some req
        /\ status req = req_success)
  /\ isProcessing two_files_first_done = true
  /\ appReducer two_files_first_done REMOVE_BACKGROUND_BUTTON_CLICKED
     = two_files_started.
Proof.
  split; [reflexivity|]. split; [discriminate|].
  split; [eexists; split; reflexivity|]. split; reflexivity.
Qed.

(** ** The compositor *)

Section Pixels.
Import Photo.
Open Scope Z_scope.

Lemma brightness_byte s :
  0 <= s <= 765 ->
  JsNumber.ToUint8Clamp (PrimFloat.div (JsNumber.Number_of_Z s) 3%float)
  = (s + 1) / 3.
Proof.
  intros Hs.
  assert (Htable :
    forallb (fun n =>
      JsNumber.ToUint8Clamp
        (PrimFloat.div (JsNumber.Number_of_Z (Z.of_nat n)) 3%float)
      =? (Z.of_nat n + 1) / 3) (seq 0 766) = true)
    by (vm_compute; reflexivity).
  rewrite forallb_forall in Htable.
  specialize (Htable (Z.to_nat s)).
  rewrite Z2Nat.id in Htable by lia.
  apply Z.eqb_eq, Htable, in_seq. lia.
Qed.

Lemma luma_to_alpha_cons r g b a rest :
  luma_to_alpha (r :: g :: b :: a :: rest)
  = r :: g :: b
    :: JsNumber.ToUint8Clamp
         (PrimFloat.div (JsNumber.Number_of_Z (r + g + b)) 3%float)
    :: luma_to_alpha rest.
Proof. reflexivity. Qed.

Lemma pixel_at_S r g b a rest k :
  pixel_at (r :: g :: b :: a :: rest) (S k) = pixel_at rest k.
Proof.
  unfold pixel_at. replace (4 * S k)%nat with (S (S (S (S (4 * k))))) by lia.
  reflexivity.
Qed.

Lemma pixel_at_some data k px :
  pixel_at data k = Some px ->
  exists r g b a rest, data = r :: g :: b :: a :: rest.
Proof.
  destruct data as [|r [|g [|b [|a rest]]]];
    try (unfold pixel_at; destruct k; simpl;
         repeat match goal with
                | |- context [skipn ?n []] => rewrite skipn_nil
                | |- context [skipn ?n ?l] => destruct n; simpl
                end; discriminate).
  intros _. now exists r, g, b, a, rest.
Qed.

Lemma luma_to_alpha_pixel k : forall data r g b a,
  0 <= r <= 255 -> 0 <= g <= 255 -> 0 <= b <= 255 ->
  pixel_at data k = Some (r, g, b, a) ->
  pixel_at (luma_to_alpha data) k = Some (r, g, b, (r + g + b + 1) / 3).
Proof.
  induction k as [|k IH]; intros data r g b a Hr Hg Hb Hpx;
    destruct (pixel_at_some _ _ _ Hpx) as (r0 & g0 & b0 & a0 & rest & ->);
    rewrite luma_to_alpha_cons.
  - injection Hpx as <- <- <- <-. unfold pixel_at. cbn [Nat.mul skipn].
    rewrite brightness_byte by lia. reflexivity.
  - rewrite pixel_at_S in Hpx |- *. eapply IH; eauto.
Qed.

Lemma source_in_pixel k : forall src dst sr sg sb sa dr dg db da,
  pixel_at src k = Some (sr, sg, sb, sa) ->
  pixel_at dst k = Some (dr, dg, db, da) ->
  pixel_at (source_in src dst) k
  = Some (if mul255 sa da =? 0 then (0, 0, 0, 0)
          else (sr, sg, sb, mul255 sa da)).
Proof.
  induction k as [|k IH]; intros src dst sr sg sb sa dr dg db da Hs Hd;
    destruct (pixel_at_some _ _ _ Hs) as (r0 & g0 & b0 & a0 & src' & ->);
    destruct (pixel_at_some _ _ _ Hd) as (r1 & g1 & b1 & a1 & dst' & ->);
    cbn [source_in].
  - injection Hs as <- <- <- <-. injection Hd as <- <- <- <-.
    destruct (mul255 _ _ =? 0); reflexivity.
  - rewrite pixel_at_S in Hs, Hd.
    destruct (mul255 a0 a1 =? 0); cbn [app]; rewrite pixel_at_S;
      eapply IH; eauto.
Qed.

Lemma mul255_opaque a : 0 <= a -> mul255 255 a = a.
Proof.
  intros Ha. unfold mul255.
  replace (255 * a + 127) with (a * 255 + 127) by lia.
  rewrite Z.div_add_l by lia. change (127 / 255) with 0. lia.
Qed.

End Pixels.

Example white_mask_is_opaque :
  Photo.composite [10; 20; 30; 255]%Z [255; 255; 255; 0]%Z
  = [10; 20; 30; 255]%Z.
Proof. vm_compute. reflexivity. Qed.

Example black_mask_is_transparent :
  Photo.composite [10; 20; 30; 255]%Z [0; 0; 0; 255]%Z = [0; 0; 0; 0]%Z.
Proof. vm_compute. reflexivity. Qed.

Example grey_mask_is_half_transparent :
  Photo.composite [10; 20; 30; 255]%Z [128; 128; 128; 255]%Z
  = [10; 20; 30; 128]%Z.
Proof. vm_compute. reflexivity. Qed.

(** C3, as the code has it: for every pixel, the alpha that the loop writes
    into the mask buffer is the mean (R + G + B) / 3 of the mask's channels
    rounded to the nearest integer, with no threshold and no gamma; the
    alpha of the composited pixel is the product of that value and the
    alpha of the photo's pixel, which is the mask's mean where the photo is
    opaque; and where the result is not fully transparent its colour is the
    photo's. *)
Theorem composite_alpha_is_mask_mean_times_photo_alpha
  (photo_pixels data : list Z) (k : nat) (r g b a sr sg sb sa : Z) :
  (0 <= r <= 255)%Z -> (0 <= g <= 255)%Z -> (0 <= b <= 255)%Z ->
  Photo.pixel_at data k = Some (r, g, b, a) ->
  Photo.pixel_at photo_pixels k = Some (sr, sg, sb, sa) ->
  let mean := ((r + g + b + 1) / 3)%Z in
  (-1 <= 3 * mean - (r + g + b) <= 1)%Z
  /\ Photo.pixel_at (Photo.luma_to_alpha data) k = Some (r, g, b, mean)
  /\ Photo.pixel_at (Photo.composite photo_pixels data) k
     = Some (if (Photo.mul255 sa mean =? 0)%Z then (0, 0, 0, 0)%Z
             else (sr, sg, sb, Photo.mul255 sa mean))
  /\ (sa = 255%Z -> Photo.mul255 sa mean = mean).
Proof.
  intros Hr Hg Hb Hd Hs mean.
  pose proof (luma_to_alpha_pixel k data r g b a Hr Hg Hb Hd) as Hl.
  split; [|split; [exact Hl|split]].
  - unfold mean. pose proof (Z.div_mod (r + g + b + 1) 3).
    pose proof (Z.mod_pos_bound (r + g + b + 1) 3). lia.
  - unfold Photo.composite. eapply source_in_pixel; eauto.
  - intros ->. apply mul255_opaque. unfold mean.
    apply Z.div_pos; lia.
Qed.

Lemma composite_alpha_is_mask_mean_times_photo_alpha_witness :
  (-1 <= 3 * 128 - (128 + 128 + 128) <= 1)%Z
  /\ Photo.pixel_at (Photo.luma_to_alpha (Photo.pixels tiny_mask)) 0
     = Some (128, 128, 128, 128)%Z
  /\ Photo.pixel_at
       (Photo.composite (Photo.pixels tiny_photo) (Photo.pixels tiny_mask)) 0
     = Some (10, 20, 30, 128)%Z
  /\ (255 = 255 -> Photo.mul255 255 128 = 128)%Z.
Proof.
  apply (composite_alpha_is_mask_mean_times_photo_alpha
           (Photo.pixels tiny_photo) (Photo.pixels tiny_mask) 0
           128 128 128 255 10 20 30 255); try lia; reflexivity.
Defined.

(** C3 as stated fails: under a white mask pixel, whose mean is 255, a
    pixel of the photo that is half transparent (alpha 128) comes out with
    alpha 128, and a fully transparent one comes out transparent black. *)
Lemma composite_alpha_depends_on_photo_alpha :
  Photo.pixel_at (Photo.luma_to_alpha [255; 255; 255; 255]%Z) 0
  = Some (255, 255, 255, 255)%Z
  /\ Photo.pixel_at
       (Photo.composite [10; 20; 30; 128]%Z [255; 255; 255; 255]%Z) 0
     = Some (10, 20, 30, 128)%Z
  /\ Photo.pixel_at
       (Photo.composite [10; 20; 30; 0]%Z [255; 255; 255; 255]%Z) 0
     = Some (0, 0, 0, 0)%Z.
Proof. vm_compute. repeat split. Qed.



(** ** File names *)

Example createFileName_no_extension :
  Photo.createFileName "photo" = None.
Proof. reflexivity. Qed.

Example createFileName_first_occurrence :
  Photo.createFileName "png.png" = Some ".png-clipped.png"%string.
Proof. reflexivity. Qed.

(** C4 fails on the code: [extname] answers with the extension without
    its dot and [replace] removes the first occurrence of that text, so the
    dot stays in the derived name: "photo.JPG" becomes "photo.-clipped.png"
    and "a.b.png" becomes "a.b.-clipped.png". *)
Theorem createFileName_leaves_the_dot :
  Photo.createFileName "photo.JPG" = Some "photo.-clipped.png"%string
  /\ Photo.createFileName "a.b.png" = Some "a.b.-clipped.png"%string.
Proof. split; reflexivity. Qed.

(** * Further properties of the code *)

(** ** [updateMap] *)

Lemma get_none_iff (V : Type) (m : JsMap.t V) k :
  JsMap.get m k = None <-> ~ In k (JsMap.keys m).
Proof.
  induction m as [|[k0 v0] m IH]; simpl.
  - tauto.
  - destruct (String.eqb_spec k0 k) as [->|Hne].
    + split; [discriminate|]. intros H. exfalso. apply H. now left.
    + rewrite IH. tauto.
Qed.

(** X1: [updateMap] gives a map in which the key holds the value and
    every other key holds what it held; a key that was there keeps its place
    (the keys are the same list), a new key goes last, and the size grows by
    one exactly in that case. *)
Theorem updateMap_lookup (V : Type) (m : JsMap.t V) (k : string) (v : V) :
  (forall k', JsMap.get (updateMap m k v) k'
              = if String.eqb k k' then Some v else JsMap.get m k')
  /\ JsMap.keys (updateMap m k v)
     = (match JsMap.get m k with
        | Some _ => JsMap.keys m
        | None => JsMap.keys m ++ [k]
        end)
  /\ JsMap.size (updateMap m k v)
     = (match JsMap.get m k with
        | Some _ => JsMap.size m
        | None => S (JsMap.size m)
        end).
Proof.
  unfold updateMap. split; [intros k'; apply get_set_eq|].
  assert (Hkeys : JsMap.keys (JsMap.set m k v)
                  = match JsMap.get m k with
                    | Some _ => JsMap.keys m
                    | None => JsMap.keys m ++ [k]
                    end).
  { induction m as [|[k0 v0] m IH]; simpl; [reflexivity|].
    destruct (String.eqb_spec k0 k) as [->|Hne]; simpl; [reflexivity|].
    rewrite IH. now destruct (JsMap.get m k). }
  split; [exact Hkeys|].
  unfold JsMap.size. rewrite <- !(length_map fst).
  change (map fst (JsMap.set m k v)) with (JsMap.keys (JsMap.set m k v)).
  rewrite Hkeys. destruct (JsMap.get m k); [reflexivity|].
  unfold JsMap.keys. rewrite length_app. simpl. lia.
Qed.

(** ** The file list *)



(** X3: [REMOVE_FILE_BUTTON_CLICKED] with an index inside the list drops
    the item at that index and keeps the others in order; with any other
    index (negative, or past the end) it changes nothing.  The run record is
    never touched. *)
Theorem remove_file_by_index (s : AppState) (index : Z) :
  files (appReducer s (REMOVE_FILE_BUTTON_CLICKED index))
  = (if ((0 <=? index) && (index <? Z.of_nat (List.length (files s))))%Z
     then firstn (Z.to_nat index) (files s)
          ++ skipn (S (Z.to_nat index)) (files s)
     else files s)
  /\ processingRequest (appReducer s (REMOVE_FILE_BUTTON_CLICKED index))
     = processingRequest s
  /\ outputFolder (appReducer s (REMOVE_FILE_BUTTON_CLICKED index))
     = outputFolder s.
Proof.
  cbn [appReducer files outputFolder processingRequest].
  split; [|split; reflexivity].
  generalize (files s) as l. intros l. revert index.
  induction l as [|x l IH]; intros index.
  - cbn [remove_at]. destruct (_ && _); [|reflexivity].
    now rewrite firstn_nil, skipn_nil.
  - cbn [remove_at]. destruct (Z.eqb_spec index 0) as [->|Hne].
    + reflexivity.
    + rewrite IH. cbn [List.length]. rewrite Nat2Z.inj_succ.
      destruct (Z.leb_spec 0 index) as [Hle|Hlt]; cbn [andb].
      * replace (0 <=? index - 1)%Z with true by (symmetry; apply Z.leb_le; lia).
        cbn [andb].
        replace (index - 1 <? Z.of_nat (List.length l))%Z
          with (index <? Z.succ (Z.of_nat (List.length l)))%Z
          by (destruct (Z.ltb_spec index (Z.succ (Z.of_nat (List.length l))));
              symmetry; [apply Z.ltb_lt|apply Z.ltb_ge]; lia).
        destruct (index <? Z.succ (Z.of_nat (List.length l)))%Z; [|reflexivity].
        replace (Z.to_nat index) with (S (Z.to_nat (index - 1))) by lia.
        reflexivity.
      * replace (0 <=? index - 1)%Z with false
          by (symmetry; apply Z.leb_gt; lia).
        reflexivity.
Qed.

(** ** The image test of [FILES_SELECTED] *)

Lemma string_length_app (a b : string) :
  String.length (a ++ b) = (String.length a + String.length b)%nat.
Proof. induction a as [|c a IH]; simpl; [reflexivity|now rewrite IH]. Qed.

Lemma lowercase_app (a b : string) :
  lowercase (a ++ b)%string = (lowercase a ++ lowercase b)%string.
Proof. induction a as [|c a IH]; simpl; [reflexivity|now rewrite IH]. Qed.

Lemma length_lowercase (s : string) :
  String.length (lowercase s) = String.length s.
Proof. induction s as [|c s IH]; simpl; [reflexivity|now rewrite IH]. Qed.

Lemma substring_all (s : string) : substring 0 (String.length s) s = s.
Proof. induction s as [|c s IH]; simpl; [reflexivity|now rewrite IH]. Qed.

Lemma substring_skip (p suffix : string) :
  substring (String.length p) (String.length suffix) (p ++ suffix) = suffix.
Proof. induction p as [|c p IH]; simpl; [apply substring_all|exact IH]. Qed.

Lemma substring_take (p rest : string) :
  substring 0 (String.length p) (p ++ rest) = p.
Proof.
  induction p as [|c p IH]; simpl; [now destruct rest|now rewrite IH].
Qed.

Lemma substring_split (s : string) : forall n,
  (n <= String.length s)%nat ->
  s = (substring 0 n s ++ substring n (String.length s - n) s)%string.
Proof.
  induction s as [|c s IH]; intros n Hn; simpl in *.
  - now destruct n.
  - destruct n as [|n]; simpl.
    + now rewrite substring_all.
    + f_equal. apply IH. lia.
Qed.

Lemma lowercase_substring (s : string) : forall a n,
  lowercase (substring a n s) = substring a n (lowercase s).
Proof.
  induction s as [|c s IH]; intros a n; simpl.
  - now destruct a, n.
  - destruct a as [|a]; [destruct n as [|n]|]; simpl; auto.
    now rewrite IH.
Qed.

Lemma endsWith_iff (s suffix : string) :
  endsWith s suffix = true <-> exists p, s = (p ++ suffix)%string.
Proof.
  unfold endsWith. rewrite andb_true_iff, Nat.leb_le, String.eqb_eq. split.
  - intros (Hle & Hsub).
    exists (substring 0 (String.length s - String.length suffix) s).
    rewrite <- Hsub at 2.
    rewrite (substring_split s (String.length s - String.length suffix)) at 1
      by lia.
    do 2 f_equal. lia.
  - intros (p & ->). rewrite string_length_app. split; [lia|].
    replace (String.length p + String.length suffix - String.length suffix)%nat
      with (String.length p) by lia.
    apply substring_skip.
Qed.

Lemma prefix_iff (p s : string) :
  String.prefix p s = true <-> exists rest, s = (p ++ rest)%string.
Proof.
  revert s. induction p as [|c p IH]; intros s.
  - split; [intros _; now exists s|intros _; now destruct s].
  - destruct s as [|d s]; cbn [String.prefix append].
    + split; [discriminate|intros (r & H); discriminate].
    + destruct (Ascii.ascii_dec c d) as [->|Hne].
      * rewrite IH. split; intros (r & H); exists r; congruence.
      * split; [discriminate|]. intros (r & H). congruence.
Qed.

(** X4: a selected file passes the image test exactly when its MIME type
    starts with "image/" or its name ends, whatever the case of the letters,
    in ".svg", ".png", ".jpg" or ".jpeg". *)
Theorem image_test_accepts (file : File) :
  is_image_file file = true <->
  (exists rest, file_type file = ("image/" ++ rest)%string)
  \/ (exists stem ext,
        file_name file = (stem ++ ext)%string
        /\ In (lowercase ext)
              [".svg"; ".png"; ".jpg"; ".jpeg"]%string).
Proof.
  unfold is_image_file, has_image_extension.
  rewrite orb_true_iff, prefix_iff, !orb_true_iff.
  assert (Hext : forall suffix,
    endsWith (lowercase (file_name file)) suffix = true <->
    exists stem ext, file_name file = (stem ++ ext)%string
                     /\ lowercase ext = suffix).
  { intros suffix. split.
    - intros H. pose proof H as H'. unfold endsWith in H'.
      apply andb_true_iff in H'. destruct H' as (Hle & Hsub).
      apply Nat.leb_le in Hle. apply String.eqb_eq in Hsub.
      rewrite length_lowercase in Hle, Hsub.
      set (n := String.length (file_name file)) in *.
      set (k := String.length suffix) in *.
      exists (substring 0 (n - k) (file_name file)),
             (substring (n - k) k (file_name file)).
      split; [|now rewrite lowercase_substring].
      rewrite (substring_split (file_name file) (n - k)) at 1 by (unfold n; lia).
      do 2 f_equal. fold n. lia.
    - intros (stem & ext & Hname & Hlow). apply endsWith_iff.
      exists (lowercase stem). now rewrite Hname, lowercase_app, Hlow. }
  rewrite !Hext. simpl In. split.
  - intros [H|H]; [now left|right].
    destruct H as [[[(stem & ext & Hn & Hl)|(stem & ext & Hn & Hl)]
                   |(stem & ext & Hn & Hl)]|(stem & ext & Hn & Hl)];
      exists stem, ext; (split; [exact Hn|]); rewrite Hl; simpl; tauto.
  - intros [H|(stem & ext & Hn & Hl)]; [now left|right].
    destruct Hl as [Hl|[Hl|[Hl|[Hl|[]]]]].
    + left; left; left. now exists stem, ext.
    + left; left; right. now exists stem, ext.
    + left; right. now exists stem, ext.
    + right. now exists stem, ext.
Qed.

(** ** Reset, output folder and buttons *)





(** ** What a run leaves alone *)

Lemma frame_reducer s0 s a :
  run_action a = true -> same_frame s0 s -> same_frame s0 (appReducer s a).
Proof.
  intros Ha Hs. destruct a; try discriminate;
    destruct s as [d f o [r|]]; exact Hs.
Qed.

Lemma frame_dispatch s0 a w :
  run_action a = true -> FrameW s0 w -> FrameW s0 (dispatch a w).
Proof.
  intros Ha (Hs & Hh). pose proof (frame_reducer s0 (state w) a Ha Hs).
  split; [assumption|]. now constructor.
Qed.

Lemma frame_await s0 b w : FrameW s0 w -> FrameW s0 (await b w).
Proof.
  intros H. unfold await, click_cancel. cbn [render state].
  destruct b; [|exact H].
  destruct (cancel_button_enabled (state w)); [|exact H].
  apply (frame_dispatch s0 CANCEL_BUTTON_CLICKED (render w) eq_refl H).
Qed.

Lemma frame_process_file s0 i file r w :
  FrameW s0 w -> FrameW s0 (fst (process_file i file r w)).
Proof.
  intros H. unfold process_file.
  repeat match goal with
         | |- context [if ?b then _ else _] => destruct b
         end;
    cbn [fst];
    repeat first [ apply frame_dispatch; [reflexivity|]
                 | apply frame_await
                 | exact H ].
Qed.

Lemma frame_process_files s0 env rest : forall i w,
  FrameW s0 w -> FrameW s0 (process_files i rest env w).
Proof.
  induction rest as [|file rest IH]; intros i w H; cbn [process_files].
  - exact H.
  - pose proof (frame_process_file s0 i file (env i) w H) as H1.
    destruct (process_file i file (env i) w) as [w' brk]. cbn [fst] in H1.
    destruct brk; [exact H1|now apply IH].
Qed.

Lemma frame_run s0 env : FrameW s0 (run env s0).
Proof.
  unfold run, handleStart.
  assert (H0 : FrameW s0 (start s0)).
  { split; [repeat split|constructor]. }
  pose proof (frame_dispatch s0 REMOVE_BACKGROUND_BUTTON_CLICKED _ eq_refl H0)
    as H1.
  pose proof (frame_process_files s0 env (files (state (start s0))) 0 _ H1)
    as H2.
  destruct (negb _); now apply frame_dispatch.
Qed.

(** X9: whatever happens to the files, [handleStart] changes nothing but
    the run record: in every state it goes through and in the one it ends
    in, the file list, the output folder and the drag flag are those of the
    state it was started in.  When its last check sees a cancellation it
    ends in the state it was started in with the run record absent, so that
    a run started from an idle state and then cancelled leaves that very
    state. *)
Theorem run_changes_only_the_run_record (env : nat -> FileRun) (s0 : AppState) :
  (forall s, In s (history (run env s0)) -> same_frame s0 s)
  /\ same_frame s0 (state (run env s0))
  /\ (isCancellingRef (run env s0) = true ->
      state (run env s0) = with_processingRequest s0 None)
  /\ (isCancellingRef (run env s0) = true ->
      processingRequest s0 = None -> state (run env s0) = s0).
Proof.
  destruct (frame_run s0 env) as (Hs & Hh).
  assert (Hcancelled : isCancellingRef (run env s0) = true ->
                       state (run env s0) = with_processingRequest s0 None).
  { unfold run, handleStart in *.
    set (w2 := process_files 0 (files (state (start s0))) env
                 (dispatch REMOVE_BACKGROUND_BUTTON_CLICKED (start s0))) in *.
    destruct (isCancellingRef w2) eqn:Href; cbn [negb] in *.
    - intros _. destruct Hs as (Hf & Ho & Hd).
      cbn [dispatch state appReducer] in *.
      unfold with_processingRequest in *. cbn in Hf, Ho, Hd.
      now rewrite Hf, Ho, Hd.
    - cbn [dispatch isCancellingRef]. rewrite Href. discriminate. }
  split; [|split; [exact Hs|split; [exact Hcancelled|]]].
  - intros s Hin. rewrite Forall_forall in Hh. now apply Hh.
  - intros Href Hnone. rewrite (Hcancelled Href).
    destruct s0 as [d f o r]. cbn in Hnone. now subst r.
Qed.

(** ** A rule for the loop of [handleStart]

    What holds after the first dispatch and is kept by every dispatch the
    loop can make, in the situation in which it makes it, holds when
    [handleStart] ends. *)

Lemma stage_render fs m c w : Stage fs m c w -> Stage fs m c (render w).
Proof.
  intros (Hh & Hg & (d & o & p & idx & Hs) & Href & Hflag).
  split; [exact Hh|split; [exact Hg|split; [|split]]].
  - cbn. now exists d, o, p, idx.
  - cbn. now rewrite Hs.
  - exact Hflag.
Qed.

Lemma enabled_not_cancelling fs m c w :
  Stage fs m c w -> cancel_button_enabled (state w) = true -> c = false.
Proof.
  intros (_ & _ & (d & o & p & idx & Hs) & _) Hen.
  unfold cancel_button_enabled, isCancelling_of in Hen. rewrite Hs in Hen.
  cbn in Hen. destruct c; [|reflexivity].
  now rewrite andb_false_r in Hen.
Qed.

Section DriverRule.

Variable fs : list FileItem.
Variable env : nat -> FileRun.
Hypothesis fs_nodup : NoDup (map id fs).
Variable J : World -> Prop.

Hypothesis J_render : forall w, J w -> J (render w).
Hypothesis J_progress : forall done file rest w,
  fs = done ++ file :: rest ->
  Stage fs (results env 0 done ++ pend (file :: rest)) false w ->
  J w ->
  J (dispatch (PROCESSING_PROGRESS_CHANGED (Z.of_nat (List.length done))) w).
Hypothesis J_processing : forall done file rest w,
  fs = done ++ file :: rest ->
  Stage fs (results env 0 done ++ pend (file :: rest)) false w ->
  J w ->
  J (dispatch (FILE_STATUS_CHANGED (id file) processing) w).
Hypothesis J_error : forall done file rest c w,
  fs = done ++ file :: rest ->
  outcome (env (List.length done)) = error ->
  Stage fs (results env 0 done ++ (id file, processing) :: pend rest) c w ->
  J w ->
  J (dispatch (FILE_STATUS_CHANGED (id file) error) w).
Hypothesis J_completed : forall done file rest w,
  fs = done ++ file :: rest ->
  outcome (env (List.length done)) = completed ->
  Stage fs (results env 0 done ++ (id file, processing) :: pend rest) false w ->
  J w ->
  J (dispatch (FILE_STATUS_CHANGED (id file) completed) w).
Hypothesis J_click : forall m w,
  Stage fs m false w ->
  cancel_button_enabled (state w) = true ->
  J w ->
  J (dispatch CANCEL_BUTTON_CLICKED w).
Hypothesis J_cancelled : forall m w,
  Stage fs m true w -> J w -> J (dispatch CANCEL_COMPLETE w).
Hypothesis J_cancelled_again : forall w,
  Gone fs w -> J w -> J (dispatch CANCEL_COMPLETE w).
Hypothesis J_finished : forall w,
  Stage fs (results env 0 fs) false w ->
  J w ->
  J (dispatch PROCESSING_COMPLETED w).

Lemma rule_await m b c w : Stage fs m c w -> J w -> J (await b w).
Proof.
  intros HS HJ. unfold await. destruct b; [|now apply J_render].
  unfold click_cancel. cbn [render state].
  destruct (cancel_button_enabled (state w)) eqn:Hen.
  - apply J_render. apply (J_click m).
    + rewrite <- (enabled_not_cancelling fs m c w HS Hen).
      now apply stage_render.
    + exact Hen.
    + now apply J_render.
  - now apply J_render, J_render.
Qed.

Lemma rule_process_file done file rest c w w' brk :
  fs = done ++ file :: rest ->
  Stage fs (results env 0 done ++ pend (file :: rest)) c w ->
  J w ->
  process_file (List.length done) file (env (List.length done)) w = (w', brk) ->
  J w'.
Proof.
  intros Hfs HS HJ. set (r := env (List.length done)).
  assert (Href : isCancellingRef w = c) by apply HS.
  unfold process_file. rewrite Href. destruct c.
  { intros [= <- _]. eapply J_cancelled; eauto. }
  pose proof (stage_progress fs env fs_nodup _ _ _ _ _ Hfs HS) as S1.
  pose proof (J_progress _ _ _ _ Hfs HS HJ) as J1.
  pose proof (stage_status fs env fs_nodup _ _ pending processing _ _ _
                Hfs eq_refl S1) as S2.
  pose proof (J_processing _ _ _ _ Hfs S1 J1) as J2.
  destruct (stage_await fs _ (cancel_during_generateMask r) _ _ S2)
    as (c1 & S3 & _ & _).
  pose proof (rule_await _ (cancel_during_generateMask r) _ _ S2 J2) as J3.
  match type of S3 with Stage _ _ _ ?x => set (w3 := x) in * end.
  clearbody w3. clear S1 S2 J1 J2.
  assert (R3 : isCancellingRef w3 = c1) by apply S3.
  destruct (generateMask_ok r) eqn:G; cbn [negb].
  2: { intros [= <- _]. eapply J_error; eauto.
       apply outcome_error. now left. }
  rewrite R3. destruct c1.
  { intros [= <- _]. eapply J_cancelled; eauto. }
  destruct (stage_await fs _ (cancel_during_applyMask r) _ _ S3)
    as (c2 & S4 & _ & _).
  pose proof (rule_await _ (cancel_during_applyMask r) _ _ S3 J3) as J4.
  match type of S4 with Stage _ _ _ ?x => set (w4 := x) in * end.
  clearbody w4. clear S3 J3 R3 w3.
  assert (R4 : isCancellingRef w4 = c2) by apply S4.
  destruct (applyMask_ok r) eqn:A; cbn [negb].
  2: { intros [= <- _]. eapply J_error; eauto.
       apply outcome_error. right. now left. }
  rewrite R4. destruct c2.
  { intros [= <- _]. eapply J_cancelled; eauto. }
  destruct (stage_await fs _ (cancel_during_save r) _ _ S4)
    as (c3 & S5 & _ & _).
  pose proof (rule_await _ (cancel_during_save r) _ _ S4 J4) as J5.
  match type of S5 with Stage _ _ _ ?x => set (w5 := x) in * end.
  clearbody w5. clear S4 J4 R4 w4.
  assert (R5 : isCancellingRef w5 = c3) by apply S5.
  destruct (save_ok r) eqn:Sv; cbn [negb].
  2: { intros [= <- _]. eapply J_error; eauto.
       apply outcome_error. right. now right. }
  rewrite R5. destruct c3.
  { intros [= <- _]. eapply J_cancelled; eauto. }
  intros [= <- _]. eapply J_completed; eauto.
  now apply outcome_completed.
Qed.

Lemma rule_process_files rest : forall done c w,
  fs = done ++ rest ->
  Stage fs (results env 0 done ++ pend rest) c w ->
  J w ->
  J (process_files (List.length done) rest env w).
Proof.
  induction rest as [|file rest IH]; intros done c w Hfs HS HJ;
    cbn [process_files]; [exact HJ|].
  destruct (process_file (List.length done) file (env (List.length done)) w)
    as [w1 brk] eqn:E.
  pose proof (rule_process_file _ _ _ _ _ _ _ Hfs HS HJ E) as J1.
  destruct (process_file_spec fs env fs_nodup _ _ _ _ _ _ _ Hfs HS E)
    as (Hpost & _).
  destruct brk; [exact J1|].
  destruct Hpost as (c' & S' & _).
  assert (Hfs' : fs = (done ++ [file]) ++ rest) by now rewrite <- app_assoc.
  specialize (IH (done ++ [file]) c' w1 Hfs' S' J1).
  now rewrite length_app, Nat.add_1_r in IH.
Qed.

Variable s0 : AppState.
Hypothesis s0_files : files s0 = fs.
Hypothesis s0_idle : isCancelling_of s0 = false.
Hypothesis J_started :
  J (dispatch REMOVE_BACKGROUND_BUTTON_CLICKED (start s0)).

Lemma driver_rule : J (run env s0).
Proof.
  unfold run, handleStart. cbn [start state]. rewrite s0_files.
  fold (start s0).
  pose proof (stage_started fs env fs_nodup s0 s0_files s0_idle) as S1.
  pose proof (rule_process_files fs [] false _ eq_refl S1 J_started) as J2.
  destruct (process_files_spec fs env fs_nodup fs [] false _ eq_refl S1)
    as (Hend & _).
  cbn zeta in Hend. cbn [List.length] in Hend, J2.
  set (w2 := process_files 0 fs env
               (dispatch REMOVE_BACKGROUND_BUTTON_CLICKED (start s0))) in *.
  clearbody w2.
  destruct Hend as [Hg|(c' & S2)].
  - assert (Href : isCancellingRef w2 = true) by apply Hg.
    rewrite Href. cbn [negb]. now apply J_cancelled_again.
  - assert (Href : isCancellingRef w2 = c') by apply S2.
    rewrite Href. destruct c'; cbn [negb].
    + eapply J_cancelled; eauto.
    + now apply J_finished.
Qed.

End DriverRule.

(** ** The states a run goes through *)

Lemma Forall_dispatch (P : AppState -> Prop) a w :
  Forall P (history w) -> P (state (dispatch a w)) ->
  Forall P (history (dispatch a w)).
Proof. intros Hh Hs. cbn [dispatch history state] in *. now constructor. Qed.

Lemma running_request fs m c s :
  running fs m c s ->
  exists req, processingRequest s = Some req
              /\ status req = req_processing
              /\ processedFiles req = m
              /\ isCancelling req = c
              /\ files s = fs.
Proof.
  intros (d & o & p & idx & ->). eexists. split; [reflexivity|].
  repeat split.
Qed.

Lemma running_click fs m c s :
  running fs m c s -> running fs m true (appReducer s CANCEL_BUTTON_CLICKED).
Proof. intros (d & o & p & idx & ->). now exists d, o, p, idx. Qed.

Lemma Stage_running fs m c w : Stage fs m c w -> running fs m c (state w).
Proof. intros H. apply H. Qed.

Lemma running_visited fs env m c s :
  running fs m c s -> in_file_order fs env m -> visited fs env s.
Proof.
  intros Hr Ho. destruct (running_request _ _ _ _ Hr) as (req & H1 & H2 & H3 & _).
  right; left. exists req. now rewrite H3.
Qed.

Lemma order_between fs env done rest :
  fs = done ++ rest -> in_file_order fs env (results env 0 done ++ pend rest).
Proof. intros ->. exists done, [], rest. repeat split. simpl. lia. Qed.

Lemma order_during fs env done file rest :
  fs = done ++ file :: rest ->
  in_file_order fs env
    (results env 0 done ++ (id file, processing) :: pend rest).
Proof.
  intros ->. exists done, [file], rest. repeat split. simpl. lia.
Qed.

Lemma order_after fs env done file rest :
  fs = done ++ file :: rest ->
  in_file_order fs env
    (results env 0 done
     ++ (id file, outcome (env (List.length done))) :: pend rest).
Proof.
  intros ->. rewrite <- table_snoc. apply order_between.
  now rewrite <- app_assoc.
Qed.

Lemma visited_dispatch fs env a w :
  visited fs env (state (dispatch a w)) ->
  visited fs env (state w) /\ Forall (visited fs env) (history w) ->
  visited fs env (state (dispatch a w))
  /\ Forall (visited fs env) (history (dispatch a w)).
Proof.
  intros Hv (_ & Hh). split; [exact Hv|]. now apply Forall_dispatch.
Qed.

Lemma run_visits env s0 :
  NoDup (map id (files s0)) -> isCancelling_of s0 = false ->
  Forall (visited (files s0) env) (history (run env s0)).
Proof.
  intros Hnd Hidle. set (fs := files s0).
  apply (driver_rule fs env Hnd
           (fun w => visited fs env (state w)
                     /\ Forall (visited fs env) (history w))).
  - intros w H. exact H.
  - intros done file rest w Hfs HS HJ. apply visited_dispatch; [|exact HJ].
    eapply running_visited.
    + apply Stage_running.
      exact (stage_progress fs env Hnd done file rest false w Hfs HS).
    + now apply order_between.
  - intros done file rest w Hfs HS HJ. apply visited_dispatch; [|exact HJ].
    eapply running_visited.
    + apply Stage_running.
      exact (stage_status fs env Hnd done file pending processing rest false w
               Hfs eq_refl HS).
    + now apply order_during.
  - intros done file rest c w Hfs Hout HS HJ.
    apply visited_dispatch; [|exact HJ]. eapply running_visited.
    + apply Stage_running.
      exact (stage_status fs env Hnd done file processing error rest c w
               Hfs eq_refl HS).
    + rewrite <- Hout. now apply order_after.
  - intros done file rest w Hfs Hout HS HJ.
    apply visited_dispatch; [|exact HJ]. eapply running_visited.
    + apply Stage_running.
      exact (stage_status fs env Hnd done file processing completed rest false
               w Hfs eq_refl HS).
    + rewrite <- Hout. now apply order_after.
  - intros m w HS Hen HJ. apply visited_dispatch; [|exact HJ].
    pose proof (Stage_running _ _ _ _ HS) as Hr.
    destruct (running_request _ _ _ _ Hr) as (req & Hreq & Hst & Hm & _).
    eapply running_visited; [cbn [dispatch state]; eapply running_click; eauto|].
    destruct HJ as ([Hn|[(r1 & H1 & _ & Ho)|(r1 & H1 & Hs1 & _)]] & _).
    + congruence.
    + replace r1 with req in Ho by congruence. now rewrite Hm in Ho.
    + replace r1 with req in Hs1 by congruence. congruence.
  - intros m w HS HJ. apply visited_dispatch; [|exact HJ]. now left.
  - intros w HG HJ. apply visited_dispatch; [|exact HJ]. now left.
  - intros w HS HJ. apply visited_dispatch; [|exact HJ].
    destruct (stage_completed fs env w HS) as (_ & _ & d & o & idx & Hs).
    rewrite Hs. right; right. eexists. split; [reflexivity|]. repeat split.
  - reflexivity.
  - exact Hidle.
  - assert (Hv : visited fs env
                   (state (dispatch REMOVE_BACKGROUND_BUTTON_CLICKED (start s0)))).
    { eapply running_visited.
      - apply Stage_running. now apply (stage_started fs env Hnd).
      - apply (order_between fs env [] fs). reflexivity. }
    split; [exact Hv|]. constructor; [exact Hv|constructor].
Qed.

Lemma outcome_cases r : outcome r = completed \/ outcome r = error.
Proof. unfold outcome. destruct (_ && _); auto. Qed.

Lemma count_processing_results env l : forall i,
  count_status processing (results env i l) = O.
Proof.
  unfold count_status.
  induction l as [|f l IH]; intros i; cbn [results JsMap.values map snd filter];
    [reflexivity|].
  fold (JsMap.values (results env (S i) l)).
  destruct (outcome_cases (env i)) as [-> | ->]; cbn [FileStatus_eqb]; apply IH.
Qed.

Lemma count_processing_pend l : count_status processing (pend l) = O.
Proof. unfold count_status. induction l as [|f l IH]; simpl; auto. Qed.

Lemma count_processing_current (l : list FileItem) :
  count_status processing (map (fun file => (id file, processing)) l)
  = List.length l.
Proof.
  unfold count_status. induction l as [|f l IH]; simpl; [reflexivity|].
  f_equal. exact IH.
Qed.

(** X10: every state of a run that has a run record lists the files in
    their order, first the files that are done, each with the status its
    iteration ended in, then at most one file that is being processed, then
    the files that wait as [pending]: files are processed one at a time and
    in order.  The record has status [processing], or else [success] with
    progress 100 and every file done; it never has status [error]. *)
Theorem run_processes_files_in_order
  (env : nat -> FileRun) (s0 s : AppState) (req : ProcessingRequest) :
  NoDup (map id (files s0)) ->
  isCancelling_of s0 = false ->
  In s (history (run env s0)) ->
  processingRequest s = Some req ->
  in_file_order (files s0) env (processedFiles req)
  /\ (count_status processing (processedFiles req) <= 1)%nat
  /\ (status req = req_processing
      \/ (status req = req_success /\ progress req = 100%Z
          /\ processedFiles req = results env 0 (files s0)))
  /\ status req <> req_error.
Proof.
  intros Hnd Hidle Hin Hreq.
  pose proof (run_visits env s0 Hnd Hidle) as Hv.
  rewrite Forall_forall in Hv. specialize (Hv s Hin).
  assert (Horder : in_file_order (files s0) env (processedFiles req)
                   /\ (status req = req_processing
                       \/ (status req = req_success /\ progress req = 100%Z
                           /\ processedFiles req = results env 0 (files s0)))).
  { destruct Hv as [Hn|[(r & Hr & Hst & Ho)|(r & Hr & Hst & Hp & Hm)]].
    - congruence.
    - replace r with req in * by congruence. split; [exact Ho|now left].
    - replace r with req in * by congruence. split; [|now right].
      rewrite Hm. exists (files s0), [], []. repeat split.
      + now rewrite !app_nil_r.
      + simpl. lia.
      + simpl. now rewrite app_nil_r. }
  destruct Horder as (Ho & Hst). split; [exact Ho|split; [|split; [exact Hst|]]].
  - destruct Ho as (done & current & rest & _ & Hlen & ->).
    rewrite !count_status_app, count_processing_results,
      count_processing_current, count_processing_pend. lia.
  - destruct Hst as [-> | (-> & _)]; discriminate.
Qed.

Lemma run_processes_files_in_order_witness :
  in_file_order (files two_files) smooth_run (processedFiles first_done_request)
  /\ (count_status processing (processedFiles first_done_request) <= 1)%nat
  /\ (status first_done_request = req_processing
      \/ (status first_done_request = req_success
          /\ progress first_done_request = 100%Z
          /\ processedFiles first_done_request
             = results smooth_run 0 (files two_files)))
  /\ status first_done_request <> req_error.
Proof.
  apply (run_processes_files_in_order smooth_run two_files
           two_files_first_done first_done_request).
  - distinct_ids.
  - reflexivity.
  - vm_compute. do 2 right. left. reflexivity.
  - reflexivity.
Defined.

(** ** The life of a file during a run *)

Lemma get_at_other (V : Type) (p q : JsMap.t V) k0 v v' k :
  k <> k0 ->
  JsMap.get (p ++ (k0, v) :: q) k = JsMap.get (p ++ (k0, v') :: q) k.
Proof.
  intros Hne. induction p as [|[k1 v1] p IH]; simpl.
  - destruct (String.eqb_spec k0 k); [congruence|reflexivity].
  - destruct (String.eqb_spec k1 k); [reflexivity|exact IH].
Qed.

Lemma one_step_same_map a b :
  (forall ra rb, processingRequest a = Some ra ->
                 processingRequest b = Some rb ->
                 processedFiles rb = processedFiles ra) ->
  one_step a b.
Proof.
  intros H req req' Ha Hb k. left. now rewrite (H _ _ Ha Hb).
Qed.

Lemma one_step_gone a b : processingRequest b = None -> one_step a b.
Proof. intros Hb req req' _ Hb'. congruence. Qed.

Lemma one_step_running fs m m' c c' a b :
  running fs m c a -> running fs m' c' b ->
  (forall k, status_step (JsMap.get m k) (JsMap.get m' k)) ->
  one_step a b.
Proof.
  intros Ha Hb H req req' Hra Hrb k.
  destruct (running_request _ _ _ _ Ha) as (ra & Hra' & _ & <- & _).
  destruct (running_request _ _ _ _ Hb) as (rb & Hrb' & _ & <- & _).
  replace req with ra by congruence. replace req' with rb by congruence.
  apply H.
Qed.

Lemma status_step_table (p q : JsMap.t FileStatus) k0 v v' :
  ~ In k0 (JsMap.keys p) ->
  status_step (Some v) (Some v') ->
  forall k, status_step (JsMap.get (p ++ (k0, v) :: q) k)
                        (JsMap.get (p ++ (k0, v') :: q) k).
Proof.
  intros Hnotin Hstep k. destruct (string_dec k k0) as [->|Hne].
  - now rewrite !get_at by exact Hnotin.
  - left. now apply get_at_other.
Qed.

Lemma adjacent_dispatch (R : AppState -> AppState -> Prop) a w :
  R (state w) (state (dispatch a w)) ->
  hd_error (history w) = Some (state w) /\ adjacent R (history w) ->
  hd_error (history (dispatch a w)) = Some (state (dispatch a w))
  /\ adjacent R (history (dispatch a w)).
Proof.
  intros HR (Hhd & Hadj). split; [reflexivity|].
  cbn [dispatch history state] in *.
  destruct (history w) as [|s l]; [discriminate|].
  injection Hhd as ->. cbn [adjacent]. now split.
Qed.

Lemma adjacent_at (R : AppState -> AppState -> Prop) newer later earlier older :
  adjacent R (newer ++ later :: earlier :: older) -> R earlier later.
Proof.
  induction newer as [|x newer IH]; intros H.
  - apply H.
  - apply IH. cbn [app adjacent] in H.
    destruct (newer ++ later :: earlier :: older) eqn:E.
    + now destruct newer.
    + apply H.
Qed.

Lemma run_steps env s0 :
  NoDup (map id (files s0)) -> isCancelling_of s0 = false ->
  adjacent one_step (history (run env s0)).
Proof.
  intros Hnd Hidle. set (fs := files s0).
  apply (driver_rule fs env Hnd
           (fun w => hd_error (history w) = Some (state w)
                     /\ adjacent one_step (history w))).
  - intros w H. exact H.
  - intros done file rest w Hfs HS HJ. apply adjacent_dispatch; [|exact HJ].
    eapply one_step_running.
    + apply Stage_running, HS.
    + apply Stage_running.
      exact (stage_progress fs env Hnd done file rest false w Hfs HS).
    + intros k. now left.
  - intros done file rest w Hfs HS HJ. apply adjacent_dispatch; [|exact HJ].
    eapply one_step_running.
    + apply Stage_running, HS.
    + apply Stage_running.
      exact (stage_status fs env Hnd done file pending processing rest false w
               Hfs eq_refl HS).
    + apply status_step_table.
      * rewrite keys_results. eapply split_not_in; eauto.
      * right; left. now split.
  - intros done file rest c w Hfs Hout HS HJ.
    apply adjacent_dispatch; [|exact HJ]. eapply one_step_running.
    + apply Stage_running, HS.
    + apply Stage_running.
      exact (stage_status fs env Hnd done file processing error rest c w
               Hfs eq_refl HS).
    + apply status_step_table.
      * rewrite keys_results. eapply split_not_in; eauto.
      * right; right. split; [reflexivity|now right].
  - intros done file rest w Hfs Hout HS HJ.
    apply adjacent_dispatch; [|exact HJ]. eapply one_step_running.
    + apply Stage_running, HS.
    + apply Stage_running.
      exact (stage_status fs env Hnd done file processing completed rest false
               w Hfs eq_refl HS).
    + apply status_step_table.
      * rewrite keys_results. eapply split_not_in; eauto.
      * right; right. split; [reflexivity|now left].
  - intros m w HS Hen HJ. apply adjacent_dispatch; [|exact HJ].
    eapply one_step_running.
    + apply Stage_running, HS.
    + cbn [dispatch state]. eapply running_click. apply Stage_running, HS.
    + intros k. now left.
  - intros m w HS HJ. apply adjacent_dispatch; [|exact HJ].
    now apply one_step_gone.
  - intros w HG HJ. apply adjacent_dispatch; [|exact HJ].
    now apply one_step_gone.
  - intros w HS HJ. apply adjacent_dispatch; [|exact HJ].
    destruct (stage_completed fs env w HS) as (_ & _ & d & o & idx & Hs).
    rewrite Hs. apply one_step_same_map. intros ra rb Ha [= <-].
    destruct (running_request _ _ _ _ (Stage_running _ _ _ _ HS))
      as (r & Hr & _ & Hm & _).
    replace ra with r by congruence. now rewrite Hm.
  - reflexivity.
  - exact Hidle.
  - split; [reflexivity|]. cbn. exact I.
Qed.

(** X11: from one state of a run to the next one that has a run record,
    the status of every file either stays, or goes from [pending] to
    [processing], or from [processing] to [completed] or [error]: no file
    is finished without having been processed, and none goes back
    ([history] has the latest state first). *)
Theorem run_status_steps
  (env : nat -> FileRun) (s0 : AppState)
  (newer : list AppState) (later earlier : AppState) (older : list AppState) :
  NoDup (map id (files s0)) ->
  isCancelling_of s0 = false ->
  history (run env s0) = newer ++ later :: earlier :: older ->
  one_step earlier later.
Proof.
  intros Hnd Hidle Hh. pose proof (run_steps env s0 Hnd Hidle) as H.
  rewrite Hh in H. now apply adjacent_at in H.
Qed.

Lemma run_status_steps_witness :
  one_step (nth 3 (history (run smooth_run two_files)) initialState)
           two_files_first_done.
Proof.
  apply (run_status_steps smooth_run two_files
           (firstn 2 (history (run smooth_run two_files)))
           two_files_first_done
           (nth 3 (history (run smooth_run two_files)) initialState)
           (skipn 4 (history (run smooth_run two_files)))).
  - distinct_ids.
  - reflexivity.
  - vm_compute. reflexivity.
Defined.

(** ** The index of the file being processed *)

Lemma reducer_keeps_index s req a :
  processingRequest s = Some req ->
  (exists k v, a = FILE_STATUS_CHANGED k v)
  \/ a = CANCEL_BUTTON_CLICKED \/ a = PROCESSING_COMPLETED ->
  exists req', processingRequest (appReducer s a) = Some req'
               /\ currentProcessingIndex req' = currentProcessingIndex req.
Proof.
  intros Hreq [(k & v & ->)|[-> | ->]]; unfold appReducer; rewrite Hreq;
    eexists; split; reflexivity.
Qed.

Lemma reducer_sets_index s req i :
  processingRequest s = Some req ->
  exists req',
    processingRequest (appReducer s (PROCESSING_PROGRESS_CHANGED i)) = Some req'
    /\ currentProcessingIndex req' = i
    /\ processedFiles req' = processedFiles req.
Proof.
  intros Hreq. unfold appReducer. rewrite Hreq.
  eexists. split; [reflexivity|]. split; reflexivity.
Qed.

Lemma finished_count_nonneg m : (0 <= finished_count m)%Z.
Proof. unfold finished_count. lia. Qed.

Lemma index_first n s :
  (forall req, processingRequest s = Some req ->
     currentProcessingIndex req = 0%Z) ->
  IndexInv n {| state := s; isCancellingRef := false; history := [s] |}.
Proof.
  intros H0. unfold IndexInv. cbn [history state].
  split; [reflexivity|split; [|split]].
  - constructor; constructor.
  - constructor; [|constructor]. intros req Hreq. rewrite (H0 req Hreq).
    pose proof (finished_count_nonneg (processedFiles req)). lia.
  - constructor; [|constructor]. intros req Hreq.
    unfold currentProcessingIndex_of. rewrite Hreq, (H0 req Hreq).
    apply finished_count_nonneg.
Qed.

Lemma index_step n a w :
  IndexInv n w ->
  processingRequest (state (dispatch a w)) = None
  \/ (exists reqw req',
        processingRequest (state w) = Some reqw
        /\ processingRequest (state (dispatch a w)) = Some req'
        /\ (finished_count (processedFiles reqw)
            <= finished_count (processedFiles req'))%Z
        /\ (currentProcessingIndex req' = currentProcessingIndex reqw
            \/ (currentProcessingIndex req'
                = finished_count (processedFiles reqw)
                /\ (currentProcessingIndex req' < n
                    \/ currentProcessingIndex req' = 0)%Z))) ->
  IndexInv n (dispatch a w).
Proof.
  intros (Hhd & Hsorted & Hown & Hnow) Hcase.
  set (new := state (dispatch a w)) in *.
  assert (Hhist : history (dispatch a w) = new :: history w) by reflexivity.
  unfold IndexInv. rewrite Hhist. fold new.
  destruct (history w) as [|head tl] eqn:Eh; [discriminate|].
  injection Hhd as Hhead. subst head.
  pose proof (Forall_inv Hown) as Hown_w.
  pose proof (StronglySorted_inv Hsorted) as (_ & Holder).
  destruct Hcase as [Hnone|(reqw & req' & Hw & Hnew & Hfc & Hidx)].
  - split; [reflexivity|split; [|split]].
    + constructor; [exact Hsorted|]. apply Forall_forall. intros s _ H.
      congruence.
    + constructor; [|exact Hown]. intros req Hreq. congruence.
    + apply Forall_forall. intros s _ req Hreq. congruence.
  - destruct (Hown_w reqw Hw) as (Hb1 & Hb2).
    assert (Hnew_own :
      (0 <= currentProcessingIndex req'
       <= finished_count (processedFiles req'))%Z
      /\ (currentProcessingIndex req' < n
          \/ currentProcessingIndex req' = 0)%Z).
    { destruct Hidx as [-> | (-> & Hb)].
      - split; [lia|exact Hb2].
      - split; [|exact Hb].
        pose proof (finished_count_nonneg (processedFiles reqw)). lia. }
    assert (Hall : forall s, In s (state w :: tl) ->
              (currentProcessingIndex_of s <= currentProcessingIndex req')%Z).
    { intros s Hin. destruct Hidx as [-> | (-> & _)].
      - destruct Hin as [<-|Hin].
        + unfold currentProcessingIndex_of. rewrite Hw. lia.
        + rewrite Forall_forall in Holder. specialize (Holder s Hin).
          unfold currentProcessingIndex_of at 2 in Holder.
          rewrite Hw in Holder. apply Holder. congruence.
      - rewrite Forall_forall in Hnow. apply (Hnow s Hin reqw Hw). }
    split; [reflexivity|split; [|split]].
    + constructor; [exact Hsorted|]. apply Forall_forall. intros s Hin _.
      unfold currentProcessingIndex_of at 2. fold new. rewrite Hnew.
      now apply Hall.
    + constructor; [|exact Hown]. intros req Hreq.
      replace req with req' by congruence. exact Hnew_own.
    + cbn [state dispatch]. fold new. constructor.
      * intros r Hr. replace r with req' by congruence.
        unfold currentProcessingIndex_of. rewrite Hnew. lia.
      * apply Forall_forall. intros s Hin r Hr.
        replace r with req' by congruence.
        rewrite Forall_forall in Hnow. specialize (Hnow s Hin reqw Hw). lia.
Qed.

Lemma index_step_running fs n a w m m' c c' :
  IndexInv n w ->
  running fs m c (state w) ->
  running fs m' c' (state (dispatch a w)) ->
  (finished_count m <= finished_count m')%Z ->
  (exists k v, a = FILE_STATUS_CHANGED k v) \/ a = CANCEL_BUTTON_CLICKED ->
  IndexInv n (dispatch a w).
Proof.
  intros HI Hr Hr' Hfc Ha. apply index_step; [exact HI|]. right.
  destruct (running_request _ _ _ _ Hr) as (reqw & Hw & _ & Hm & _).
  destruct (running_request _ _ _ _ Hr') as (req' & Hnew & _ & Hm' & _).
  exists reqw, req'. rewrite Hm, Hm'.
  split; [exact Hw|split; [exact Hnew|split; [exact Hfc|left]]].
  destruct (reducer_keeps_index (state w) reqw a Hw) as (r & Hr1 & Hr2).
  { destruct Ha as [Ha| ->]; [now left|right; now left]. }
  cbn [dispatch state] in Hnew. congruence.
Qed.

Lemma run_index env s0 :
  NoDup (map id (files s0)) -> isCancelling_of s0 = false ->
  IndexInv (Z.of_nat (List.length (files s0))) (run env s0).
Proof.
  intros Hnd Hidle. set (fs := files s0).
  apply (driver_rule fs env Hnd (IndexInv (Z.of_nat (List.length fs)))).
  - intros w H. exact H.
  - intros done file rest w Hfs HS HJ. apply index_step; [exact HJ|]. right.
    destruct (running_request _ _ _ _ (Stage_running _ _ _ _ HS))
      as (reqw & Hw & _ & Hm & _).
    destruct (reducer_sets_index (state w) reqw (Z.of_nat (List.length done)) Hw)
      as (req' & Hnew & Hi & Hm').
    exists reqw, req'. rewrite Hm', Hi, Hm.
    split; [exact Hw|split; [exact Hnew|split; [lia|right]]].
    simpl pend. rewrite finished_count_table. simpl.
    split; [lia|left]. rewrite Hfs, length_app. simpl. lia.
  - intros done file rest w Hfs HS HJ.
    eapply index_step_running;
      [exact HJ|apply Stage_running, HS| |
       |left; now exists (id file), processing].
    + apply Stage_running.
      exact (stage_status fs env Hnd done file pending processing rest false w
               Hfs eq_refl HS).
    + simpl pend. rewrite !finished_count_table. simpl. lia.
  - intros done file rest c w Hfs Hout HS HJ.
    eapply index_step_running;
      [exact HJ|apply Stage_running, HS| |
       |left; now exists (id file), error].
    + apply Stage_running.
      exact (stage_status fs env Hnd done file processing error rest c w
               Hfs eq_refl HS).
    + rewrite !finished_count_table. simpl. lia.
  - intros done file rest w Hfs Hout HS HJ.
    eapply index_step_running;
      [exact HJ|apply Stage_running, HS| |
       |left; now exists (id file), completed].
    + apply Stage_running.
      exact (stage_status fs env Hnd done file processing completed rest false
               w Hfs eq_refl HS).
    + rewrite !finished_count_table. simpl. lia.
  - intros m w HS Hen HJ.
    eapply index_step_running;
      [exact HJ|apply Stage_running, HS| | |now right].
    + cbn [dispatch state]. eapply running_click. apply Stage_running, HS.
    + lia.
  - intros m w HS HJ. apply index_step; [exact HJ|]. now left.
  - intros w HG HJ. apply index_step; [exact HJ|]. now left.
  - intros w HS HJ. apply index_step; [exact HJ|]. right.
    destruct (running_request _ _ _ _ (Stage_running _ _ _ _ HS))
      as (reqw & Hw & _ & Hm & _).
    destruct (reducer_keeps_index (state w) reqw PROCESSING_COMPLETED Hw)
      as (req' & Hnew & Hi); [now right; right|].
    destruct (stage_completed fs env w HS) as (_ & _ & d & o & idx & Hs).
    exists reqw, req'.
    split; [exact Hw|split; [exact Hnew|split; [|now left]]].
    cbn [dispatch state] in Hs. rewrite Hs in Hnew.
    injection Hnew as <-. cbn [processedFiles]. rewrite Hm. lia.
  - reflexivity.
  - exact Hidle.
  - pose proof (stage_started fs env Hnd s0 eq_refl Hidle) as S1.
    destruct (running_request _ _ _ _ (Stage_running _ _ _ _ S1))
      as (r1 & Hr1 & _ & _).
    cbn [dispatch start state history] in *.
    replace (isCancelling_of s0) with false.
    apply index_first. intros req Hreq.
    unfold appReducer, with_processingRequest in Hreq. cbn in Hreq.
    now injection Hreq as <-.
Qed.

(** X12: in a run the index of the file being processed never goes down
    as long as there is a run record, it is never above the number of files
    that are finished, and it is an index of the file list (or 0) ([history]
    has the latest state first). *)
Theorem run_index_never_decreases (env : nat -> FileRun) (s0 : AppState) :
  NoDup (map id (files s0)) ->
  isCancelling_of s0 = false ->
  (forall s req, In s (history (run env s0)) ->
     processingRequest s = Some req ->
     (0 <= currentProcessingIndex req
      <= finished_count (processedFiles req))%Z
     /\ (currentProcessingIndex req < Z.of_nat (List.length (files s0))
         \/ currentProcessingIndex req = 0)%Z)
  /\ (forall newer later between earlier older,
        history (run env s0)
        = newer ++ later :: between ++ earlier :: older ->
        processingRequest later <> None ->
        (currentProcessingIndex_of earlier
         <= currentProcessingIndex_of later)%Z).
Proof.
  intros Hnd Hidle.
  destruct (run_index env s0 Hnd Hidle) as (_ & Hsorted & Hown & _).
  split.
  - intros s req Hin. rewrite Forall_forall in Hown. now apply Hown.
  - intros newer later between earlier older Hh Hrec.
    rewrite Hh in Hsorted. apply StronglySorted_later in Hsorted.
    rewrite Forall_forall in Hsorted.
    apply Hsorted; [|exact Hrec]. apply in_or_app. right. now left.
Qed.

Lemma run_index_never_decreases_witness :
  (forall s req, In s (history (run second_fails three_files)) ->
     processingRequest s = Some req ->
     (0 <= currentProcessingIndex req
      <= finished_count (processedFiles req))%Z
     /\ (currentProcessingIndex req
         < Z.of_nat (List.length (files three_files))
         \/ currentProcessingIndex req = 0)%Z)
  /\ (forall newer later between earlier older,
        history (run second_fails three_files)
        = newer ++ later :: between ++ earlier :: older ->
        processingRequest later <> None ->
        (currentProcessingIndex_of earlier
         <= currentProcessingIndex_of later)%Z).
Proof.
  apply (run_index_never_decreases second_fails three_files).
  - distinct_ids.
  - reflexivity.
Defined.

(** ** After "Cancel" *)

Lemma after_cancel_refl s : after_cancel s s.
Proof.
  intros _ req req' H1 H2 k v Hk. left.
  rewrite H1 in H2. now injection H2 as <-.
Qed.

Lemma after_cancel_gone a b : processingRequest b = None -> after_cancel a b.
Proof. intros Hb _ req req' _ H. congruence. Qed.

Lemma after_cancel_quiet a b : isCancelling_of a = false -> after_cancel a b.
Proof. intros Ha H. congruence. Qed.

Lemma cancel_step a w :
  CancelInv w ->
  Forall (fun s => after_cancel s (state (dispatch a w))) (history w) ->
  CancelInv (dispatch a w).
Proof.
  intros (Hs & _) Hnew. split; cbn [dispatch history state] in *.
  - constructor; assumption.
  - constructor; [apply after_cancel_refl|exact Hnew].
Qed.

Lemma cancel_step_quiet fs m a w :
  CancelInv w -> Stage fs m false w -> CancelInv (dispatch a w).
Proof.
  intros HJ (_ & _ & _ & _ & Hflags). apply cancel_step; [exact HJ|].
  eapply Forall_impl; [|exact Hflags]. intros s Hs.
  apply after_cancel_quiet.
  destruct (isCancelling_of s) eqn:E; [|reflexivity].
  discriminate (Hs E).
Qed.

Lemma cancel_step_gone a w :
  CancelInv w -> processingRequest (state (dispatch a w)) = None ->
  CancelInv (dispatch a w).
Proof.
  intros HJ Hn. apply cancel_step; [exact HJ|].
  apply Forall_forall. intros s _. now apply after_cancel_gone.
Qed.

Lemma after_cancel_error fs env done file rest c c' a b b' :
  NoDup (map id fs) -> fs = done ++ file :: rest ->
  running fs (results env 0 done ++ (id file, processing) :: pend rest) c b ->
  running fs (results env 0 done ++ (id file, error) :: pend rest) c' b' ->
  after_cancel a b -> after_cancel a b'.
Proof.
  intros Hnd Hfs Hb Hb' Hab Hc req req' Ha Hreq' k v Hk.
  destruct (running_request _ _ _ _ Hb) as (rb & Hrb & _ & Hmb & _).
  destruct (running_request _ _ _ _ Hb') as (rb' & Hrb' & _ & Hmb' & _).
  rewrite Hrb' in Hreq'. injection Hreq' as <-. rewrite Hmb'.
  specialize (Hab Hc req rb Ha Hrb k v Hk). rewrite Hmb in Hab.
  assert (Hfree : ~ In (id file) (JsMap.keys (results env 0 done))).
  { rewrite keys_results. eapply split_not_in; eauto. }
  destruct (String.eqb_spec k (id file)) as [->|Hne].
  - rewrite (get_at _ (pend rest) _ error Hfree).
    rewrite (get_at _ (pend rest) _ processing Hfree) in Hab.
    destruct Hab as [Hv|(_ & Hv)]; [|discriminate Hv].
    injection Hv as <-. right. split; reflexivity.
  - rewrite <- (get_at_other _ _ _ _ processing error _ Hne). exact Hab.
Qed.

Lemma run_after_cancel env s0 :
  NoDup (map id (files s0)) -> isCancelling_of s0 = false ->
  CancelInv (run env s0).
Proof.
  intros Hnd Hidle. set (fs := files s0).
  apply (driver_rule fs env Hnd CancelInv).
  - intros w H. exact H.
  - intros done file rest w Hfs HS HJ. eapply cancel_step_quiet; eauto.
  - intros done file rest w Hfs HS HJ. eapply cancel_step_quiet; eauto.
  - intros done file rest c w Hfs Hout HS HJ.
    apply cancel_step; [exact HJ|]. destruct HJ as (_ & Hcur).
    eapply Forall_impl; [|exact Hcur]. intros s Hs.
    eapply (after_cancel_error fs env done file rest);
      [exact Hnd|exact Hfs|apply Stage_running, HS| |exact Hs].
    apply Stage_running.
    exact (stage_status fs env Hnd done file processing error rest c w
             Hfs eq_refl HS).
  - intros done file rest w Hfs Hout HS HJ. eapply cancel_step_quiet; eauto.
  - intros m w HS Hen HJ. eapply cancel_step_quiet; eauto.
  - intros m w HS HJ. now apply cancel_step_gone.
  - intros w HG HJ. now apply cancel_step_gone.
  - intros w HS HJ. eapply cancel_step_quiet; eauto.
  - reflexivity.
  - exact Hidle.
  - split; cbn [dispatch start history state].
    + constructor; [constructor|constructor].
    + constructor; [apply after_cancel_refl|constructor].
Qed.

(** X13: once a state of a run has [isCancelling] set, no file is started
    or completed any more: in every later state that has a run record each
    file has the status it had, except that the file that was being
    processed may have become [error] ([history] has the latest state
    first). *)
Theorem cancel_stops_the_run
  (env : nat -> FileRun) (s0 : AppState)
  (newer : list AppState) (later : AppState) (between : list AppState)
  (earlier : AppState) (older : list AppState)
  (req req' : ProcessingRequest) (k : string) (v : FileStatus) :
  NoDup (map id (files s0)) ->
  isCancelling_of s0 = false ->
  history (run env s0) = newer ++ later :: between ++ earlier :: older ->
  isCancelling_of earlier = true ->
  processingRequest earlier = Some req ->
  processingRequest later = Some req' ->
  JsMap.get (processedFiles req) k = Some v ->
  JsMap.get (processedFiles req') k = Some v
  \/ (v = processing /\ JsMap.get (processedFiles req') k = Some error).
Proof.
  intros Hnd Hidle Hh Hc Hreq Hreq' Hk.
  destruct (run_after_cancel env s0 Hnd Hidle) as (Hsorted & _).
  rewrite Hh in Hsorted. apply StronglySorted_later in Hsorted.
  rewrite Forall_forall in Hsorted.
  assert (Hin : In earlier (between ++ earlier :: older)).
  { apply in_or_app. right. now left. }
  exact (Hsorted earlier Hin Hc req req' Hreq Hreq' k v Hk).
Qed.

Lemma cancel_stops_the_run_witness :
  JsMap.get (processedFiles failed_after_cancel_request) "id-a"%string
  = Some processing
  \/ (processing = processing
      /\ JsMap.get (processedFiles failed_after_cancel_request) "id-a"%string
         = Some error).
Proof.
  apply (cancel_stops_the_run cancelled_and_failed two_files
           (firstn 2 (history (run cancelled_and_failed two_files)))
           (with_processingRequest two_files
              (Some failed_after_cancel_request))
           []
           (with_processingRequest two_files (Some cancel_requested_request))
           (skipn 4 (history (run cancelled_and_failed two_files)))
           cancel_requested_request failed_after_cancel_request).
  - distinct_ids.
  - reflexivity.
  - vm_compute. reflexivity.
  - reflexivity.
  - reflexivity.
  - reflexivity.
  - reflexivity.
Defined.

(** ** The end of a run that is not cancelled *)

Lemma get_results_nth env l : forall i j file,
  NoDup (map id l) -> nth_error l j = Some file ->
  JsMap.get (results env i l) (id file) = Some (outcome (env (i + j)%nat)).
Proof.
  induction l as [|f l IH]; intros i j file Hnd Hnth.
  - destruct j; discriminate Hnth.
  - simpl in Hnd. apply NoDup_cons_iff in Hnd. destruct Hnd as (Hf & Hnd).
    destruct j as [|j]; simpl in Hnth |- *.
    + injection Hnth as ->. now rewrite String.eqb_refl, Nat.add_0_r.
    + destruct (String.eqb_spec (id f) (id file)) as [E|_].
      * exfalso. apply Hf. rewrite E. apply in_map.
        eapply nth_error_In, Hnth.
      * rewrite Nat.add_succ_r. apply (IH (S i) j file Hnd Hnth).
Qed.

(** X14: when nobody clicks "Cancel", a run over a list of files that is
    not empty ends in a state that the component shows as complete: the
    bar is at 100, the "Reset" button has replaced "Remove background" and
    "Cancel", the drop zone takes no files, and the [i]-th file is shown as
    [completed] when its three steps went through and as [error]
    otherwise. *)
Theorem quiet_run_ends_complete (env : nat -> FileRun) (s0 : AppState) :
  files s0 <> [] ->
  NoDup (map id (files s0)) ->
  isCancelling_of s0 = false ->
  (forall i, no_click (env i) = true) ->
  isComplete (state (run env s0)) = true
  /\ getProgress (state (run env s0)) = 100%Z
  /\ isProcessing (state (run env s0)) = false
  /\ reset_button_shown (state (run env s0)) = true
  /\ start_button_enabled (state (run env s0)) = false
  /\ cancel_button_enabled (state (run env s0)) = false
  /\ drop_enabled (state (run env s0)) = false
  /\ (forall i file, nth_error (files s0) i = Some file ->
        shown_status (state (run env s0)) file = outcome (env i)).
Proof.
  intros Hne Hnd Hidle Hquiet.
  destruct (run_spec (files s0) env Hnd s0 eq_refl Hidle)
    as (_ & Hf & _ & Hdone & Href).
  cbn zeta in *. specialize (Href Hquiet).
  destruct (Hdone Href) as (_ & req & Hreq & Hst & Hp & Hm).
  assert (Hc : isComplete (state (run env s0)) = true).
  { unfold isComplete, processedFiles_of. rewrite Hf, Hreq, Hm, results_size.
    destruct (files s0) as [|f l]; [congruence|].
    cbn [List.length Nat.eqb]. apply results_all_finished. }
  assert (Hproc : isProcessing (state (run env s0)) = false).
  { unfold isProcessing. now rewrite Hreq, Hst. }
  unfold getProgress, reset_button_shown, start_button_enabled,
    cancel_button_enabled, drop_enabled. rewrite Hc, Hproc.
  repeat (split; [reflexivity|]).
  intros i file Hnth. unfold shown_status, processedFiles_of.
  rewrite Hreq, Hm. now rewrite (get_results_nth env _ 0 i file Hnd Hnth).
Qed.

Lemma quiet_run_ends_complete_witness :
  isComplete (state (run second_fails three_files)) = true
  /\ getProgress (state (run second_fails three_files)) = 100%Z
  /\ isProcessing (state (run second_fails three_files)) = false
  /\ reset_button_shown (state (run second_fails three_files)) = true
  /\ start_button_enabled (state (run second_fails three_files)) = false
  /\ cancel_button_enabled (state (run second_fails three_files)) = false
  /\ drop_enabled (state (run second_fails three_files)) = false
  /\ (forall i file, nth_error (files three_files) i = Some file ->
        shown_status (state (run second_fails three_files)) file
        = outcome (second_fails i)).
Proof.
  apply (quiet_run_ends_complete second_fails three_files).
  - discriminate.
  - distinct_ids.
  - reflexivity.
  - intros i. unfold second_fails. now destruct (Nat.eqb i 1).
Defined.

(** ** The canvas of [applyMask] *)

Section Canvas.
Import Photo.
Open Scope Z_scope.

Lemma by_pixels (P : list Z -> Prop) :
  (forall data, (List.length data < 4)%nat -> P data) ->
  (forall r g b a rest, P rest -> P (r :: g :: b :: a :: rest)) ->
  forall data, P data.
Proof.
  intros Hshort Hpixel data.
  assert (H : forall n data, (List.length data <= n)%nat -> P data).
  { clear data. induction n as [|n IH]; intros data Hn.
    - apply Hshort. lia.
    - destruct data as [|r [|g [|b [|a rest]]]];
        try (apply Hshort; simpl; lia).
      apply Hpixel, IH. simpl in Hn. lia. }
  now apply (H (List.length data)).
Qed.

Lemma luma_to_alpha_short data :
  (List.length data < 4)%nat -> luma_to_alpha data = data.
Proof.
  destruct data as [|r [|g [|b [|a rest]]]]; try reflexivity.
  simpl. lia.
Qed.

Lemma ToUint8Clamp_byte x : 0 <= JsNumber.ToUint8Clamp x <= 255.
Proof.
  unfold JsNumber.ToUint8Clamp.
  destruct (Prim2SF x) as [s|[|]| |s m e]; lia.
Qed.

Lemma mul255_le sa da : 0 <= sa -> 0 <= da <= 255 -> 0 <= mul255 sa da <= sa.
Proof.
  intros Hs Hd. unfold mul255. split.
  - apply Z.div_pos; nia.
  - apply Z.lt_succ_r, Z.div_lt_upper_bound; nia.
Qed.

Lemma mul255_le_mask sa da :
  0 <= sa <= 255 -> 0 <= da -> mul255 sa da <= da.
Proof.
  intros Hs Hd. unfold mul255.
  apply Z.lt_succ_r, Z.div_lt_upper_bound; nia.
Qed.

Lemma source_in_length src : forall dst n,
  List.length src = (4 * n)%nat -> List.length dst = (4 * n)%nat ->
  List.length (source_in src dst) = (4 * n)%nat.
Proof.
  induction src as [src Hshort|sr sg sb sa src IH] using by_pixels;
    intros dst n Hs Hd.
  - assert (n = O) by lia. subst n.
    destruct src; [|discriminate Hs]. reflexivity.
  - destruct n as [|n]; [discriminate Hs|].
    destruct dst as [|dr [|dg [|db [|da dst]]]]; try (simpl in Hd; lia).
    cbn [source_in]. rewrite length_app.
    rewrite (IH dst n) by (simpl in Hs, Hd; lia).
    destruct (mul255 sa da =? 0); simpl; lia.
Qed.

Lemma luma_to_alpha_length data :
  List.length (luma_to_alpha data) = List.length data.
Proof.
  induction data as [data Hshort|r g b a rest IH] using by_pixels.
  - now rewrite luma_to_alpha_short.
  - rewrite luma_to_alpha_cons. simpl. now rewrite IH.
Qed.

Lemma luma_to_alpha_any k : forall data r g b a,
  pixel_at data k = Some (r, g, b, a) ->
  pixel_at (luma_to_alpha data) k
  = Some (r, g, b,
          JsNumber.ToUint8Clamp
            (PrimFloat.div (JsNumber.Number_of_Z (r + g + b)) 3%float)).
Proof.
  induction k as [|k IH]; intros data r g b a Hpx;
    destruct (pixel_at_some _ _ _ Hpx) as (r0 & g0 & b0 & a0 & rest & ->);
    rewrite luma_to_alpha_cons.
  - injection Hpx as <- <- <- <-. reflexivity.
  - rewrite pixel_at_S in Hpx |- *. eapply IH; eauto.
Qed.

(** X15: the loop of [applyMask] over the pixel buffer leaves the length
    of the buffer and the colour of every pixel as they are, writes an alpha
    byte that does not depend on the alpha that was there, and changes
    nothing when it is run a second time. *)
Theorem luma_to_alpha_rewrites_alpha_only (data : list Z) :
  List.length (luma_to_alpha data) = List.length data
  /\ luma_to_alpha (luma_to_alpha data) = luma_to_alpha data
  /\ (forall k r g b a,
        pixel_at data k = Some (r, g, b, a) ->
        exists alpha,
          pixel_at (luma_to_alpha data) k = Some (r, g, b, alpha)
          /\ 0 <= alpha <= 255
          /\ forall data' a',
               pixel_at data' k = Some (r, g, b, a') ->
               pixel_at (luma_to_alpha data') k = Some (r, g, b, alpha)).
Proof.
  split; [apply luma_to_alpha_length|split].
  - induction data as [data Hshort|r g b a rest IH] using by_pixels.
    + rewrite (luma_to_alpha_short data Hshort).
      apply luma_to_alpha_short, Hshort.
    + rewrite !luma_to_alpha_cons. now rewrite IH.
  - intros k r g b a Hk. eexists.
    split; [apply (luma_to_alpha_any k _ _ _ _ _ Hk)|].
    split; [apply ToUint8Clamp_byte|].
    intros data' a' Hk'. apply (luma_to_alpha_any k _ _ _ _ _ Hk').
Qed.

(** X16: the canvas keeps its size, and pixel by pixel the result of
    [applyMask] is never more opaque than the photo, nor than the alpha
    written for the mask; a pixel that comes out transparent is black, any
    other has the colour of the photo; under a black pixel of the mask the
    result is transparent, under a white one it is the pixel of the
    photo. *)
Theorem composite_clips_the_photo
  (photo_pixels data : list Z) (n k : nat) (r g b a sr sg sb sa : Z) :
  List.length photo_pixels = (4 * n)%nat ->
  List.length data = (4 * n)%nat ->
  pixel_at data k = Some (r, g, b, a) ->
  pixel_at photo_pixels k = Some (sr, sg, sb, sa) ->
  0 <= sa <= 255 ->
  List.length (composite photo_pixels data) = (4 * n)%nat
  /\ exists alpha out,
       pixel_at (luma_to_alpha data) k = Some (r, g, b, alpha)
       /\ pixel_at (composite photo_pixels data) k = Some (out, mul255 sa alpha)
       /\ 0 <= mul255 sa alpha <= sa
       /\ mul255 sa alpha <= alpha
       /\ (mul255 sa alpha = 0 -> out = (0, 0, 0))
       /\ (mul255 sa alpha <> 0 -> out = (sr, sg, sb))
       /\ (r = 0 -> g = 0 -> b = 0 -> mul255 sa alpha = 0)
       /\ (r = 255 -> g = 255 -> b = 255 -> mul255 sa alpha = sa).
Proof.
  intros Hlp Hld Hd Hs Hsa. split.
  - unfold composite. apply source_in_length; [exact Hlp|].
    now rewrite luma_to_alpha_length.
  - pose proof (luma_to_alpha_any k _ _ _ _ _ Hd) as Hl.
    set (alpha := JsNumber.ToUint8Clamp _) in Hl.
    assert (Hbyte : 0 <= alpha <= 255) by apply ToUint8Clamp_byte.
    pose proof (source_in_pixel k photo_pixels (luma_to_alpha data)
                  sr sg sb sa r g b alpha Hs Hl) as Hc.
    fold (composite photo_pixels data) in Hc.
    exists alpha.
    exists (if mul255 sa alpha =? 0 then (0, 0, 0) else (sr, sg, sb)).
    split; [exact Hl|]. split.
    { rewrite Hc. destruct (mul255 sa alpha =? 0) eqn:E; [|reflexivity].
      apply Z.eqb_eq in E. now rewrite E. }
    split; [apply mul255_le; lia|]. split; [apply mul255_le_mask; lia|].
    split; [intros E; now rewrite E|]. split.
    { intros E. apply Z.eqb_neq in E. now rewrite E. }
    split.
    + intros -> -> ->.
      assert (E : alpha = 0) by (vm_compute; reflexivity).
      rewrite E. unfold mul255. rewrite Z.mul_0_r. reflexivity.
    + intros -> -> ->.
      assert (E : alpha = 255) by (vm_compute; reflexivity).
      rewrite E. unfold mul255.
      rewrite Z.div_add_l by lia. change (127 / 255) with 0. lia.
Qed.

Lemma composite_clips_the_photo_witness :
  List.length (composite (pixels tiny_photo) (pixels tiny_mask)) = (4 * 1)%nat
  /\ exists alpha out,
       pixel_at (luma_to_alpha (pixels tiny_mask)) 0
       = Some (128, 128, 128, alpha)
       /\ pixel_at (composite (pixels tiny_photo) (pixels tiny_mask)) 0
          = Some (out, mul255 255 alpha)
       /\ 0 <= mul255 255 alpha <= 255
       /\ mul255 255 alpha <= alpha
       /\ (mul255 255 alpha = 0 -> out = (0, 0, 0))
       /\ (mul255 255 alpha <> 0 -> out = (10, 20, 30))
       /\ (128 = 0 -> 128 = 0 -> 128 = 0 -> mul255 255 alpha = 0)
       /\ (128 = 255 -> 128 = 255 -> 128 = 255 -> mul255 255 alpha = 255).
Proof.
  apply (composite_clips_the_photo (pixels tiny_photo) (pixels tiny_mask)
           1 0 128 128 128 255 10 20 30 255); try reflexivity. lia.
Defined.

End Canvas.

(** ** The ways [applyMask] ends *)


(** ** The name of the written file *)

Section FileNames.
Import Photo.

Lemma split_on_whole sep s : has_char sep s = false -> split_on sep s = [s].
Proof.
  induction s as [|c s IH]; simpl; [reflexivity|].
  intros H. apply orb_false_iff in H. destruct H as (Hc & Hs).
  rewrite Hc, (IH Hs). reflexivity.
Qed.

Lemma rindex_dot_none s : has_char "." s = false -> rindex_dot s = None.
Proof.
  induction s as [|c s IH]; simpl; [reflexivity|].
  intros H. apply orb_false_iff in H. destruct H as (Hc & Hs).
  now rewrite (IH Hs), Hc.
Qed.

Lemma rindex_dot_last stem ext :
  has_char "." ext = false ->
  rindex_dot (stem ++ String "." ext) = Some (String.length stem).
Proof.
  intros Hext. induction stem as [|c stem IH]; simpl.
  - now rewrite (rindex_dot_none ext Hext).
  - now rewrite IH.
Qed.

Lemma has_char_app c a b :
  has_char c (a ++ b) = has_char c a || has_char c b.
Proof.
  induction a as [|d a IH]; simpl; [reflexivity|].
  now rewrite IH, orb_assoc.
Qed.

Lemma basename_plain s :
  has_char "/" s = false -> (3 <= String.length s)%nat -> basename s = Some s.
Proof.
  intros Hs Hlen. unfold basename. rewrite (split_on_whole "/" s Hs).
  destruct s as [|a [|b [|c s]]]; simpl in Hlen; try lia.
  cbn [filter]. 
  replace (String.eqb (String a (String b (String c s))) EmptyString) with false
    by reflexivity.
  replace (String.eqb (String a (String b (String c s))) ".") with false.
  2: { symmetry. apply String.eqb_neq. intros H. discriminate H. }
  cbn [orb negb rev app].
  replace (String.eqb (String a (String b (String c s))) "..") with false.
  2: { symmetry. apply String.eqb_neq. intros H. discriminate H. }
  reflexivity.
Qed.

Lemma split_on_no_dot sep s :
  has_char "." s = false ->
  Forall (fun c => has_char "." c = false) (split_on sep s).
Proof.
  induction s as [|c s IH]; simpl; intros H.
  - constructor; [reflexivity|constructor].
  - apply orb_false_iff in H. destruct H as (Hc & Hs). specialize (IH Hs).
    destruct (Ascii.eqb c sep).
    + constructor; [reflexivity|exact IH].
    + destruct (split_on sep s) as [|x xs].
      * constructor; [simpl; now rewrite Hc|constructor].
      * apply Forall_cons_iff in IH. destruct IH as (Hx & Hxs).
        constructor; [simpl; now rewrite Hc, Hx|exact Hxs].
Qed.

Lemma extname_no_dot path : has_char "." path = false -> extname path = None.
Proof.
  intros H. unfold extname.
  destruct (basename path) as [file|] eqn:Hb; [|reflexivity].
  assert (Hfile : has_char "." file = false).
  { unfold basename in Hb.
    pose proof (split_on_no_dot "/" path H) as Hall.
    set (keep := fun c => negb (String.eqb c EmptyString || String.eqb c "."))
      in Hb.
    assert (Hkept : Forall (fun c => has_char "." c = false)
                      (rev (filter keep (split_on "/" path)))).
    { apply Forall_forall. intros c Hc. apply in_rev, filter_In in Hc.
      rewrite Forall_forall in Hall. apply Hall, Hc. }
    destruct (rev (filter keep (split_on "/" path))) as [|last l];
      [discriminate Hb|].
    destruct (String.eqb last ".."); [discriminate Hb|].
    injection Hb as <-. now apply Forall_cons_iff in Hkept. }
  now rewrite (rindex_dot_none file Hfile).
Qed.

Lemma app_dot stem ext :
  (stem ++ String "." ext)%string = ((stem ++ ".") ++ ext)%string.
Proof. induction stem as [|d stem IH]; simpl; [reflexivity|now rewrite IH]. Qed.

Lemma length_dot stem : String.length (stem ++ ".") = S (String.length stem).
Proof. rewrite string_length_app. simpl. lia. Qed.

Lemma substring_none s : substring (String.length s) 0 s = EmptyString.
Proof. induction s as [|c s IH]; simpl; [reflexivity|exact IH]. Qed.

Lemma app_empty s : (s ++ EmptyString)%string = s.
Proof. induction s as [|c s IH]; simpl; [reflexivity|now rewrite IH]. Qed.

(** X18: a file name [stem.ext] without a slash, whose stem is not empty
    and whose extension has no dot and does not occur earlier in the name,
    is turned into [stem.-clipped.png]: the extension is removed, its dot
    is not. *)
Theorem createFileName_of_plain_name (stem ext : string) :
  stem <> EmptyString ->
  has_char "/" (stem ++ String "." ext) = false ->
  has_char "." ext = false ->
  String.index 0 ext (stem ++ String "." ext)
  = Some (S (String.length stem)) ->
  basename (stem ++ String "." ext) = Some (stem ++ String "." ext)%string
  /\ extname (stem ++ String "." ext) = Some ext
  /\ createFileName (stem ++ String "." ext)
     = Some (stem ++ ".-clipped.png")%string.
Proof.
  intros Hstem Hslash Hdot Hindex.
  assert (Hlen : String.length (stem ++ String "." ext)
                 = (S (String.length stem) + String.length ext)%nat).
  { rewrite string_length_app. simpl. lia. }
  assert (Hstem' : (1 <= String.length stem)%nat).
  { destruct stem; [congruence|simpl; lia]. }
  assert (Hext : (1 <= String.length ext)%nat).
  { destruct ext; [|simpl; lia]. destruct stem; [congruence|].
    discriminate Hindex. }
  assert (Hbase : basename (stem ++ String "." ext)
                  = Some (stem ++ String "." ext)%string).
  { apply basename_plain; [exact Hslash|]. rewrite Hlen. lia. }
  assert (Hextname : extname (stem ++ String "." ext) = Some ext).
  { unfold extname. rewrite Hbase, (rindex_dot_last stem ext Hdot).
    destruct (String.length stem) as [|i] eqn:Ei; [lia|].
    f_equal. rewrite Hlen, (app_dot stem ext).
    replace (S (S i) + String.length ext - S (S i))%nat
      with (String.length ext) by lia.
    replace (S (S i)) with (String.length (stem ++ "."))
      by (rewrite length_dot; lia).
    apply substring_skip. }
  split; [exact Hbase|split; [exact Hextname|]].
  unfold createFileName. rewrite Hbase, Hextname. f_equal.
  unfold replace_with_empty. rewrite Hindex.
  replace (S (String.length stem) + String.length ext)%nat
    with (String.length (stem ++ String "." ext)) by exact Hlen.
  rewrite Nat.sub_diag, substring_none, app_empty.
  rewrite (app_dot stem ext), <- (length_dot stem), substring_take.
  symmetry. apply (app_dot stem "-clipped.png").
Qed.

Lemma createFileName_of_plain_name_witness :
  basename ("holiday" ++ String "." "jpeg") = Some "holiday.jpeg"%string
  /\ extname ("holiday" ++ String "." "jpeg") = Some "jpeg"%string
  /\ createFileName ("holiday" ++ String "." "jpeg")
     = Some ("holiday" ++ ".-clipped.png")%string.
Proof.
  apply (createFileName_of_plain_name "holiday" "jpeg").
  - discriminate.
  - reflexivity.
  - reflexivity.
  - reflexivity.
Defined.

End FileNames.

(** ** The written file *)

Section Saving.
Import Photo.


(** X19: a file whose name has no dot cannot be saved: [extname] rejects,
    so do [createFileName] and [save], and nothing is written. *)
Theorem save_rejects_name_without_dot
  (join : string -> string -> string) (writable : string -> bool)
  (disk : Service.Disk) (outputFolder originalFilename : string)
  (bytes : list Z) :
  has_char "." originalFilename = false ->
  extname originalFilename = None
  /\ createFileName originalFilename = None
  /\ (exists reason,
        fst (Service.save join writable disk outputFolder originalFilename
               bytes) = Rejected reason)
  /\ snd (Service.save join writable disk outputFolder originalFilename bytes)
     = disk.
Proof.
  intros Hdot. pose proof (extname_no_dot originalFilename Hdot) as He.
  assert (Hc : createFileName originalFilename = None).
  { unfold createFileName. rewrite He.
    now destruct (basename originalFilename). }
  unfold Service.save. rewrite Hc. cbn [fst snd].
  split; [exact He|split; [reflexivity|split; [eexists|]; reflexivity]].
Qed.

Lemma save_rejects_name_without_dot_witness :
  extname "Makefile" = None
  /\ createFileName "Makefile" = None
  /\ (exists reason,
        fst (Service.save (fun folder name => folder ++ "/" ++ name)%string
               (fun _ => true) (fun _ => None) "out" "Makefile" [1; 2; 3]%Z)
        = Rejected reason)
  /\ snd (Service.save (fun folder name => folder ++ "/" ++ name)%string
            (fun _ => true) (fun _ => None) "out" "Makefile" [1; 2; 3]%Z)
     = (fun _ => None).
Proof.
  apply (save_rejects_name_without_dot
           (fun folder name => folder ++ "/" ++ name)%string
           (fun _ => true) (fun _ => None) "out" "Makefile" [1; 2; 3]%Z).
  reflexivity.
Defined.


End Saving.

(** ** The model *)

Section ModelOnce.

Variable WebAI : Type.
Variable create_and_init : nat -> Photo.Promise WebAI.
Variable generate : WebAI -> string -> Photo.Promise string.

Lemma generateMask_each_set urls : forall m promise,
  Service.webai m = Some promise ->
  Service.generateMask_each create_and_init generate m urls
  = (map (fun url =>
            match promise with
            | Photo.Resolved webai => generate webai url
            | Photo.Rejected reason => Photo.Rejected reason
            end) urls,
     m).
Proof.
  induction urls as [|url urls IH]; intros m promise Hm; [reflexivity|].
  cbn [Service.generateMask_each map].
  unfold Service.generateMask, Service.getWebAI. rewrite Hm.
  destruct promise as [webai|reason]; now rewrite (IH m _ Hm).
Qed.

(** X21: however many masks are generated one after the other, the model
    is created once, by the first call, and every call gets the outcome of
    that one creation: the masks are those of the one instance, and when
    the creation has failed every call is rejected for the reason of that
    failure, without a new attempt. *)
Theorem model_is_created_once (url : string) (urls : list string) :
  let answer (imageBlobUrl : string) :=
    match create_and_init 0 with
    | Photo.Resolved webai => generate webai imageBlobUrl
    | Photo.Rejected reason => Photo.Rejected reason
    end in
  Service.generateMask_each create_and_init generate (Service.loaded WebAI)
    (url :: urls)
  = (map answer (url :: urls),
     {| Service.webai := Some (create_and_init 0); Service.created := 1 |}).
Proof.
  cbn zeta. cbn [Service.generateMask_each map].
  unfold Service.generateMask at 1. unfold Service.getWebAI.
  cbn [Service.webai Service.loaded Service.created].
  destruct (create_and_init 0) as [webai|reason] eqn:Hboot;
    erewrite generateMask_each_set by reflexivity; reflexivity.
Qed.

End ModelOnce.

(** ** "Cancel" in the component of [App.tsx] *)

Lemma values_set_in (V : Type) (m : JsMap.t V) k v :
  In v (JsMap.values (JsMap.set m k v)).
Proof.
  induction m as [|[k' v'] m IH]; simpl; [now left|].
  destruct (String.eqb k' k); simpl; auto.
Qed.

Lemma legacy_not_complete_while_processing s k :
  Legacy.isComplete
    (Legacy.setProcessedFiles (fun prev => JsMap.set prev k processing) s)
  = false.
Proof.
  unfold Legacy.isComplete.
  cbn [Legacy.files Legacy.processedFiles Legacy.setProcessedFiles].
  destruct (Nat.eqb _ 0); [reflexivity|].
  destruct (Nat.eqb _ 0); [reflexivity|].
  apply not_true_is_false. intros H. rewrite forallb_forall in H.
  specialize (H processing (values_set_in _ (Legacy.processedFiles s) k _)).
  discriminate H.
Qed.

Lemma legacy_stopped_loop env rest : forall i s,
  Legacy.cancelledRef s = true -> Legacy.process_files i rest env s = s.
Proof.
  destruct rest as [|file rest]; intros i s Hc; [reflexivity|].
  cbn [Legacy.process_files]. unfold Legacy.process_file. now rewrite Hc.
Qed.

Lemma legacy_quiet_prefix env done rest : forall i s,
  Legacy.cancelledRef s = false -> Legacy.isProcessing s = true ->
  (forall j, (j < List.length done)%nat -> no_click (env (i + j)%nat) = true) ->
  exists s',
    Legacy.process_files i (done ++ rest) env s
    = Legacy.process_files (i + List.length done) rest env s'
    /\ Legacy.cancelledRef s' = false /\ Legacy.isProcessing s' = true
    /\ Legacy.files s' = Legacy.files s.
Proof.
  induction done as [|file done IH]; intros i s Hc Hp Hq.
  - exists s. simpl. now rewrite Nat.add_0_r.
  - cbn [app Legacy.process_files].
    rewrite legacy_process_file_quiet;
      [|exact Hc|rewrite <- (Nat.add_0_r i); apply Hq; simpl; lia].
    destruct (IH (S i)
                (Legacy.setProcessedFiles
                   (fun prev =>
                      JsMap.set (JsMap.set prev (id file) processing)
                        (id file) (outcome (env i)))
                   (Legacy.setCurrentProcessingIndex (Z.of_nat i) s)))
      as (s' & E & Hc' & Hp' & Hf'); [exact Hc|exact Hp| |].
    + intros j Hj. replace (S i + j)%nat with (i + S j)%nat by lia.
      apply Hq. simpl. lia.
    + exists s'. rewrite E. cbn [List.length].
      replace (i + S (List.length done))%nat
        with (S i + List.length done)%nat by lia.
      now repeat split.
Qed.

Lemma legacy_click_then_failure i file r s :
  Legacy.cancelledRef s = false -> Legacy.isProcessing s = true ->
  click_then_failure r = true ->
  exists s',
    Legacy.process_file i file r s = (s', false)
    /\ Legacy.processedFiles s' = [(id file, error)]
    /\ Legacy.cancelledRef s' = true /\ Legacy.isProcessing s' = false
    /\ Legacy.files s' = Legacy.files s.
Proof.
  intros Hc Hp Hr. unfold Legacy.process_file. rewrite Hc. cbv zeta.
  set (s2 := Legacy.setProcessedFiles
               (fun prev => JsMap.set prev (id file) processing)
               (Legacy.setCurrentProcessingIndex (Z.of_nat i) s)).
  assert (Hclick : Legacy.click_cancel s2 = Legacy.cancel_onClick s2).
  { unfold Legacy.click_cancel, s2.
    rewrite legacy_not_complete_while_processing.
    cbn [Legacy.isProcessing Legacy.setProcessedFiles
         Legacy.setCurrentProcessingIndex]. now rewrite Hp. }
  assert (Hagain : Legacy.click_cancel (Legacy.cancel_onClick s2)
                   = Legacy.cancel_onClick s2).
  { unfold Legacy.click_cancel.
    replace (Legacy.isProcessing (Legacy.cancel_onClick s2)) with false
      by reflexivity.
    now rewrite andb_false_r. }
  assert (Hs2 : Legacy.cancelledRef s2 = false) by exact Hc.
  unfold click_then_failure in Hr. unfold Legacy.await.
  destruct r as [g cg a ca sv cs].
  cbn [generateMask_ok cancel_during_generateMask applyMask_ok
       cancel_during_applyMask save_ok cancel_during_save] in *.
  destruct g, cg, a, ca, sv, cs; cbn [negb orb] in Hr |- *;
    try discriminate Hr;
    rewrite ?Hclick, ?Hagain;
    (eexists; split; [reflexivity|now repeat split]).
Qed.

(** X22: in the component of [App.tsx], when "Cancel" is clicked while a
    file is processed and a step of that file fails afterwards, the click
    empties the status map and the failure then enters the file in it: the
    run ends with that one entry, so that the component shows the run as
    complete, with the bar at 100, although the other files were not
    processed. *)
Theorem legacy_cancel_then_failure_shows_complete
  (env : nat -> FileRun) (s : Legacy.State)
  (done : list FileItem) (file : FileItem) (rest : list FileItem) :
  Legacy.no_outputFolder s = false ->
  Legacy.files s = done ++ file :: rest ->
  (forall j, (j < List.length done)%nat -> no_click (env j) = true) ->
  click_then_failure (env (List.length done)) = true ->
  Legacy.processedFiles (Legacy.handleStart env s) = [(id file, error)]
  /\ Legacy.files (Legacy.handleStart env s) = Legacy.files s
  /\ Legacy.isProcessing (Legacy.handleStart env s) = false
  /\ Legacy.isComplete (Legacy.handleStart env s) = true
  /\ Legacy.getProgress (Legacy.handleStart env s) = 100%Z.
Proof.
  intros Hout Hfiles Hquiet Hfail.
  unfold Legacy.handleStart. rewrite Hout.
  cbn [Legacy.files Legacy.setCancelledRef Legacy.setProcessedFiles
       Legacy.setCurrentProcessingIndex Legacy.setIsProcessing].
  rewrite Hfiles.
  set (s1 := Legacy.setIsProcessing true _).
  destruct (legacy_quiet_prefix env done (file :: rest) 0 s1 eq_refl eq_refl)
    as (s2 & E & Hc2 & Hp2 & Hf2); [exact Hquiet|].
  rewrite E. cbn [Nat.add Legacy.process_files].
  destruct (legacy_click_then_failure (List.length done) file
              (env (List.length done)) s2 Hc2 Hp2 Hfail)
    as (s3 & E3 & Hm3 & Hc3 & Hp3 & Hf3).
  rewrite E3, (legacy_stopped_loop env rest _ s3 Hc3).
  assert (Hfs : Legacy.files s3 = done ++ file :: rest).
  { rewrite Hf3, Hf2. exact Hfiles. }
  assert (Hcomplete : Legacy.isComplete (Legacy.setIsProcessing false s3)
                      = true).
  { unfold Legacy.isComplete.
    cbn [Legacy.files Legacy.processedFiles Legacy.setIsProcessing].
    rewrite Hm3, Hfs. now destruct done. }
  unfold Legacy.getProgress. rewrite Hcomplete.
  cbn [Legacy.files Legacy.processedFiles Legacy.isProcessing
       Legacy.setIsProcessing].
  rewrite Hm3, Hfs. now repeat split.
Qed.

Lemma legacy_cancel_then_failure_shows_complete_witness :
  Legacy.processedFiles (Legacy.handleStart cancelled_and_failed
                           legacy_two_files)
  = [(id photo_a, error)]
  /\ Legacy.files (Legacy.handleStart cancelled_and_failed legacy_two_files)
     = Legacy.files legacy_two_files
  /\ Legacy.isProcessing (Legacy.handleStart cancelled_and_failed
                            legacy_two_files) = false
  /\ Legacy.isComplete (Legacy.handleStart cancelled_and_failed
                          legacy_two_files) = true
  /\ Legacy.getProgress (Legacy.handleStart cancelled_and_failed
                           legacy_two_files) = 100%Z.
Proof.
  apply (legacy_cancel_then_failure_shows_complete cancelled_and_failed
           legacy_two_files [] photo_a [photo_b]).
  - reflexivity.
  - reflexivity.
  - intros j Hj. simpl in Hj. lia.
  - reflexivity.
Defined.

(** ** Dragging *)

